(** * Anomaly detection engine of weather_analysis_ai

    A shallow embedding of [src/app/anomaly.py] and of the part of
    [src/app/models.py] it uses, followed by the theorems that relate the
    embedding to the written specification.

    Numbers.  The program computes with binary floating point; rounding is
    abstracted here: a finite Python float is a real number, and the three
    special values that pandas/numpy division can create (NaN, +inf, -inf)
    are kept as separate constructors of [float].  Python's own [/] raises
    [ZeroDivisionError] on a zero divisor, pandas' [/] does not; both are
    modelled as the code uses them.

    Exceptions.  A statement that can raise has a [result] type; a
    [try: ... except Exception:] block is [try_except].

    Storage.  The weather collection is read only: every detector takes
    the list that [find({"location": location}).sort("year", 1)] returned.
    The anomaly collection is a list that [delete_many] and [insert_many]
    transform, and either call can be rejected ([Faults]). *)

From Stdlib Require Import String Reals Lra Lia Bool ZArith PeanoNat List Sorted.
Import ListNotations.

Local Open Scope R_scope.

(** ** Exceptions *)

Inductive exn : Type :=
| ZeroDivisionError
| ValueError
| KeyError
| IndexError
| StorageError.

Inductive result (A : Type) : Type :=
| Ok (a : A)
| Raise (e : exn).

Arguments Ok {A} a.
Arguments Raise {A} e.

Definition bind {A B : Type} (m : result A) (k : A -> result B) : result B :=
  match m with
  | Ok a => k a
  | Raise e => Raise e
  end.

Notation "x <- m ;; k" := (bind m (fun x => k))
  (at level 61, m at next level, right associativity).

(** [try: ... except Exception: return d] *)
Definition try_except {A : Type} (m : result A) (d : A) : A :=
  match m with
  | Ok a => a
  | Raise _ => d
  end.

(** [[f(x) for x in l]] where [f] may raise: the first exception wins. *)
Fixpoint mapM {A B : Type} (f : A -> result B) (l : list A) : result (list B) :=
  match l with
  | [] => Ok []
  | x :: t => y <- f x ;; ys <- mapM f t ;; Ok (y :: ys)
  end.

(** ** Floats *)

Inductive float : Type :=
| Fin (r : R)
| PInf
| NInf
| NaN.

Definition Rgeb (x y : R) : bool := if Rle_dec y x then true else false.
Definition Rgtb (x y : R) : bool := if Rlt_dec y x then true else false.
Definition Reqb (x y : R) : bool := if Req_dec_T x y then true else false.

(** Python [a / b] on finite floats. *)
Definition py_div (a b : R) : result R :=
  if Reqb b 0 then Raise ZeroDivisionError else Ok (a / b).

(** [math.sqrt] *)
Definition math_sqrt (x : R) : result R :=
  if Rgtb 0 x then Raise ValueError else Ok (sqrt x).

(** [abs] on a float that may be special. *)
Definition fabs (x : float) : float :=
  match x with
  | Fin r => Fin (Rabs r)
  | PInf | NInf => PInf
  | NaN => NaN
  end.

(** [x >= c] for a finite constant [c]; every comparison with NaN is False. *)
Definition fge (x : float) (c : R) : bool :=
  match x with
  | Fin r => Rgeb r c
  | PInf => true
  | NInf => false
  | NaN => false
  end.

(** pandas / numpy element-wise subtraction. *)
Definition fsub (x y : float) : float :=
  match x, y with
  | NaN, _ | _, NaN => NaN
  | Fin a, Fin b => Fin (a - b)
  | Fin _, PInf => NInf
  | Fin _, NInf => PInf
  | PInf, PInf => NaN
  | PInf, _ => PInf
  | NInf, NInf => NaN
  | NInf, _ => NInf
  end.

Definition sign_inf (positive : bool) : float := if positive then PInf else NInf.

(** pandas / numpy element-wise division: no exception, [x/0] is an
    infinity of the sign of [x] and [0/0] is NaN. *)
Definition fdiv (x y : float) : float :=
  match x, y with
  | NaN, _ | _, NaN => NaN
  | Fin a, Fin b =>
      if Reqb b 0 then
        if Reqb a 0 then NaN else sign_inf (Rgtb a 0)
      else Fin (a / b)
  | Fin _, (PInf | NInf) => Fin 0
  | (PInf | NInf), (PInf | NInf) => NaN
  | PInf, Fin b => sign_inf (Rgeb b 0)
  | NInf, Fin b => sign_inf (negb (Rgeb b 0))
  end.

(** [pd.isna] and [Series.fillna]. *)
Definition isna (x : float) : bool :=
  match x with NaN => true | _ => false end.

Definition fillna (d : R) (x : float) : float :=
  match x with NaN => Fin d | _ => x end.

(** ** [models.py] *)

Inductive WeatherDataType : Type :=
| TEMPERATURE | PRECIPITATION | HUMIDITY | PRESSURE | WIND.

Inductive AnomalySeverity : Type :=
| LOW | MEDIUM | HIGH | EXTREME.

(** ** The statistics kernel *)

Definition sum (values : list R) : R := fold_left Rplus values 0.

Definition len {A : Type} (l : list A) : R := INR (length l).

Definition calculate_mean (values : list R) : result R :=
  match values with
  | [] => Ok 0
  | _ => py_div (sum values) (len values)
  end.

Definition calculate_std (values : list R) : result R :=
  if (length values <? 2)%nat then Ok 0
  else
    mean_val <- calculate_mean values ;;
    variance <- py_div (sum (map (fun x => (x - mean_val) ^ 2) values))
                       (len values - 1) ;;
    math_sqrt variance.

Definition calculate_z_score (value mean std : R) : result R :=
  if Reqb std 0 then Ok 0
  else py_div (value - mean) std.

Definition determine_severity (z_score : float) : AnomalySeverity :=
  let abs_z := fabs z_score in
  if fge abs_z 2.5 then EXTREME
  else if fge abs_z 2.0 then HIGH
  else if fge abs_z 1.5 then MEDIUM
  else LOW.

(** ** Documents of the weather collection

    [weather_data] below is always the list
    [list(self.weather_collection.find({"location": location}).sort("year", 1))]
    as the storage collaborator returned it.  The ['month'] and ['tas_avg']
    keys are the two the code treats as optional ([record.get('month', 1)]
    and ['tas_avg' in weather_data[0]]). *)

Record WeatherDoc : Type := {
  _id : string;
  year : Z;
  month : option Z;
  tasmax_avg : R;
  tasmin_avg : R;
  tas_avg : option R;
  pr_total : R
}.

(** [record.get('month', 1)] *)
Definition get_month (record : WeatherDoc) : Z :=
  match month record with Some m => m | None => 1%Z end.

(** [datetime(year, month, day)] raises [ValueError] outside its ranges;
    the day is always 1 here. *)
Definition datetime (y m d : Z) : result (Z * Z * Z) :=
  if ((1 <=? y) && (y <=? 9999) && (1 <=? m) && (m <=? 12))%Z
  then Ok (y, m, d)
  else Raise ValueError.

(** ** The data frame of [get_weather_dataframe] *)

Record Row : Type := {
  df_id : string;
  df_date : Z * Z * Z;
  df_year : Z;
  df_month : Z;
  pr : R;
  tasmax : R;
  tasmin : R
}.

Definition get_weather_dataframe (weather_data : list WeatherDoc) : list Row :=
  try_except
    (match weather_data with
     | [] => Ok []
     | _ =>
         mapM (fun record =>
                 date <- datetime (year record) (get_month record) 1 ;;
                 Ok {| df_id := _id record;
                       df_date := date;
                       df_year := year record;
                       df_month := get_month record;
                       pr := pr_total record;
                       tasmax := tasmax_avg record;
                       tasmin := tasmin_avg record |})
              weather_data
     end)
    [].

(** ** pandas: [groupby('month').agg(...).reset_index()] and
       [pd.merge(..., on='month', how='left')] *)

(** Group keys come out sorted and without repetition. *)
Fixpoint insert_key (k : Z) (keys : list Z) : list Z :=
  match keys with
  | [] => [k]
  | h :: t =>
      if (k <? h)%Z then k :: keys
      else if (k =? h)%Z then keys
      else h :: insert_key k t
  end.

Definition group_keys {A : Type} (key : A -> Z) (df : list A) : list Z :=
  fold_right (fun r acc => insert_key (key r) acc) [] df.

Definition group {A : Type} (key : A -> Z) (df : list A) (k : Z) : list A :=
  filter (fun r => (key r =? k)%Z) df.

Definition groupby_agg {A B : Type} (key : A -> Z) (agg : list A -> B)
    (df : list A) : list (Z * B) :=
  map (fun k => (k, agg (group key df k))) (group_keys key df).

Fixpoint lookup {B : Type} (k : Z) (table : list (Z * B)) : option B :=
  match table with
  | [] => None
  | (k', b) :: t => if (k =? k')%Z then Some b else lookup k t
  end.

(** The right-hand table has one row per key, so a left merge keeps the
    rows of [df] in place; a key without partner would get NaN columns. *)
Definition merge_left {A B : Type} (key : A -> Z) (df : list A)
    (table : list (Z * B)) : list (A * option B) :=
  map (fun r => (r, lookup (key r) table)) df.

(** ['mean'] over a column of finite values. *)
Definition pd_mean (values : list R) : float :=
  match values with
  | [] => NaN
  | _ => Fin (sum values / len values)
  end.

(** The finite entries of a column once NaN is skipped; [None] when an
    infinity is among them. *)
Fixpoint finite_values (column : list float) : option (list R) :=
  match column with
  | [] => Some []
  | NaN :: t => finite_values t
  | Fin r :: t =>
      match finite_values t with
      | Some vs => Some (r :: vs)
      | None => None
      end
  | (PInf | NInf) :: _ => None
  end.

(** ['std'] (ddof = 1, NaN skipped): NaN for fewer than two values. *)
Definition pd_std (column : list float) : float :=
  match finite_values column with
  | None => NaN
  | Some vs =>
      if (length vs <? 2)%nat then NaN
      else
        let m := sum vs / len vs in
        Fin (sqrt (sum (map (fun x => (x - m) ^ 2) vs) / (len vs - 1)))
  end.

(** ** Columns of the three variables

    The code repeats every column statement for ['pr'], ['tasmax'] and
    ['tasmin']; a [Triple] holds the three columns of one kind, so that
    [on_pr (anomaly_zscore row)] is [row['pr_anomaly_zscore']] and so on. *)

Record Triple (A : Type) : Type := {
  on_pr : A;
  on_tasmax : A;
  on_tasmin : A
}.

Arguments on_pr {A} t.
Arguments on_tasmax {A} t.
Arguments on_tasmin {A} t.

Definition tmap {A B : Type} (f : A -> B) (t : Triple A) : Triple B :=
  {| on_pr := f (on_pr t); on_tasmax := f (on_tasmax t); on_tasmin := f (on_tasmin t) |}.

Definition tmap2 {A B C : Type} (f : A -> B -> C) (t : Triple A) (u : Triple B) : Triple C :=
  {| on_pr := f (on_pr t) (on_pr u);
     on_tasmax := f (on_tasmax t) (on_tasmax u);
     on_tasmin := f (on_tasmin t) (on_tasmin u) |}.

(** The aggregation of one group, column by column. *)
Definition agg3 {A B C : Type} (columns : Triple (A -> B)) (f : list B -> C)
    (g : list A) : Triple C :=
  tmap (fun c => f (map c g)) columns.

Definition nan3 : Triple float := {| on_pr := NaN; on_tasmax := NaN; on_tasmin := NaN |}.

Definition raw_columns : Triple (Row -> R) :=
  {| on_pr := pr; on_tasmax := tasmax; on_tasmin := tasmin |}.

(** [calculate_monthly_historical_averages]: one row per month with
    [pr_monthly_avg_historical], [tasmax_...] and [tasmin_...]. *)
Definition calculate_monthly_historical_averages (df : list Row)
    : list (Z * Triple float) :=
  groupby_agg df_month (agg3 raw_columns pd_mean) df.

(** A row of [df_anomalies]. *)
Record AnomalyRow : Type := {
  base : Row;
  monthly_avg_historical : Triple float;
  anomaly : Triple float;
  anomaly_std : Triple float;
  anomaly_zscore : Triple float;
  anomaly_significant : Triple bool
}.

Definition zscore_threshold : R := 2.0.

Definition calculate_anomalies_with_zscores (df : list Row) : list AnomalyRow :=
  let monthly_averages := calculate_monthly_historical_averages df in
  (* merge the monthly averages back *)
  let merged :=
    map (fun '(r, avg) => (r, match avg with Some a => a | None => nan3 end))
        (merge_left df_month df monthly_averages) in
  (* anomaly = current value - monthly historical average *)
  let df_anomalies :=
    map (fun '(r, avg) =>
           (r, avg, tmap2 (fun c a => fsub (Fin (c r)) a) raw_columns avg))
        merged in
  (* standard deviation of the anomalies of each month *)
  let anomaly_std :=
    groupby_agg (fun '(r, _, _) => df_month r)
      (agg3 {| on_pr := fun '(_, _, an) => on_pr an;
               on_tasmax := fun '(_, _, an) => on_tasmax an;
               on_tasmin := fun '(_, _, an) => on_tasmin an |} pd_std)
      df_anomalies in
  let merged_std :=
    map (fun '(row, sd) => (row, match sd with Some s => s | None => nan3 end))
        (merge_left (fun '(r, _, _) => df_month r) df_anomalies anomaly_std) in
  map (fun '((r, avg, an), sd) =>
         let zscore := tmap2 fdiv an sd in
         {| base := r;
            monthly_avg_historical := avg;
            anomaly := an;
            anomaly_std := sd;
            anomaly_significant := tmap (fun z => fge (fabs z) zscore_threshold) zscore;
            anomaly_zscore := tmap (fillna 0) zscore |})
      merged_std.

(** ** [models.Anomaly]

    [detected_at] (the wall-clock default) is left out.  A [description]
    keeps the template and the values that the f-string formats. *)

Inductive Description : Type :=
| PrecipitationAnomaly (y m : Z) (v avg an z : float)
| MaximumTemperatureAnomaly (y m : Z) (v avg an z : float)
| MinimumTemperatureAnomaly (y m : Z) (v avg an z : float)
| RecordHighTemperature (m : Z) (v : R) (y : Z) (z : R)
| RecordLowTemperature (m : Z) (v : R) (y : Z) (z : R)
| RecordHighPrecipitation (m : Z) (v : R) (y : Z) (z : R)
| MovingAverageAnomaly (v ma z : R).

Record Anomaly : Type := {
  id : option string;
  weather_data_id : string;
  anomaly_type : WeatherDataType;
  severity : AnomalySeverity;
  value : float;
  expected_value : float;
  deviation : float;
  z_score : float;
  description : Description;
  location : option string;
  monthly_historical_avg : option float;
  monthly_anomaly_std : option float;
  is_significant : option bool;
  metric_type : option string
}.

(** ** [get_notebook_style_anomalies] *)

Definition precipitation_anomaly (loc : string) (row : AnomalyRow) : Anomaly :=
  let r := base row in
  {| id := None;
     weather_data_id := df_id r;
     anomaly_type := PRECIPITATION;
     severity := determine_severity (on_pr (anomaly_zscore row));
     value := Fin (pr r);
     expected_value := on_pr (monthly_avg_historical row);
     deviation := on_pr (anomaly row);
     z_score := on_pr (anomaly_zscore row);
     description :=
       PrecipitationAnomaly (df_year r) (df_month r) (Fin (pr r))
         (on_pr (monthly_avg_historical row)) (on_pr (anomaly row))
         (on_pr (anomaly_zscore row));
     location := Some loc;
     monthly_historical_avg := Some (on_pr (monthly_avg_historical row));
     monthly_anomaly_std := Some (on_pr (anomaly_std row));
     is_significant := Some true;
     metric_type := None |}.

Definition tasmax_anomaly (loc : string) (row : AnomalyRow) : Anomaly :=
  let r := base row in
  {| id := None;
     weather_data_id := df_id r;
     anomaly_type := TEMPERATURE;
     severity := determine_severity (on_tasmax (anomaly_zscore row));
     value := Fin (tasmax r);
     expected_value := on_tasmax (monthly_avg_historical row);
     deviation := on_tasmax (anomaly row);
     z_score := on_tasmax (anomaly_zscore row);
     description :=
       MaximumTemperatureAnomaly (df_year r) (df_month r) (Fin (tasmax r))
         (on_tasmax (monthly_avg_historical row)) (on_tasmax (anomaly row))
         (on_tasmax (anomaly_zscore row));
     location := Some loc;
     monthly_historical_avg := Some (on_tasmax (monthly_avg_historical row));
     monthly_anomaly_std := Some (on_tasmax (anomaly_std row));
     is_significant := Some true;
     metric_type := Some "tasmax"%string |}.

Definition tasmin_anomaly (loc : string) (row : AnomalyRow) : Anomaly :=
  let r := base row in
  {| id := None;
     weather_data_id := df_id r;
     anomaly_type := TEMPERATURE;
     severity := determine_severity (on_tasmin (anomaly_zscore row));
     value := Fin (tasmin r);
     expected_value := on_tasmin (monthly_avg_historical row);
     deviation := on_tasmin (anomaly row);
     z_score := on_tasmin (anomaly_zscore row);
     description :=
       MinimumTemperatureAnomaly (df_year r) (df_month r) (Fin (tasmin r))
         (on_tasmin (monthly_avg_historical row)) (on_tasmin (anomaly row))
         (on_tasmin (anomaly_zscore row));
     location := Some loc;
     monthly_historical_avg := Some (on_tasmin (monthly_avg_historical row));
     monthly_anomaly_std := Some (on_tasmin (anomaly_std row));
     is_significant := Some true;
     metric_type := Some "tasmin"%string |}.

(** The body of the [iterrows] loop: what one row appends. *)
Definition row_anomalies (loc : string) (row : AnomalyRow) : list Anomaly :=
  (if on_pr (anomaly_significant row) && negb (isna (on_pr (anomaly_zscore row)))
   then [precipitation_anomaly loc row] else [])
  ++ (if on_tasmax (anomaly_significant row) && negb (isna (on_tasmax (anomaly_zscore row)))
      then [tasmax_anomaly loc row] else [])
  ++ (if on_tasmin (anomaly_significant row) && negb (isna (on_tasmin (anomaly_zscore row)))
      then [tasmin_anomaly loc row] else []).

Definition get_notebook_style_anomalies (loc : string)
    (weather_data : list WeatherDoc) : list Anomaly :=
  let df := get_weather_dataframe weather_data in
  match df with
  | [] => []
  | _ =>
      let df_anomalies := calculate_anomalies_with_zscores df in
      match df_anomalies with
      | [] => []
      | _ => flat_map (row_anomalies loc) df_anomalies
      end
  end.

(** ** [get_anomaly_timeseries_data] *)

Record MetricSeries : Type := {
  dates : list (Z * Z * Z);
  anomalies : list float;
  z_scores : list float;
  significant : list bool;
  values : list R;
  historical_avg : list float
}.

Definition metric_series (df_anomalies : list AnomalyRow)
    (raw : Row -> R) (pick : forall A : Type, Triple A -> A) : MetricSeries :=
  {| dates := map (fun row => df_date (base row)) df_anomalies;
     anomalies := map (fun row => pick _ (anomaly row)) df_anomalies;
     z_scores := map (fun row => pick _ (anomaly_zscore row)) df_anomalies;
     significant := map (fun row => pick _ (anomaly_significant row)) df_anomalies;
     values := map (fun row => raw (base row)) df_anomalies;
     historical_avg := map (fun row => pick _ (monthly_avg_historical row)) df_anomalies |}.

(** [None] is the empty dict [{}]. *)
Definition get_anomaly_timeseries_data (weather_data : list WeatherDoc)
    : option (Triple MetricSeries) :=
  let df := get_weather_dataframe weather_data in
  match df with
  | [] => None
  | _ =>
      let df_anomalies := calculate_anomalies_with_zscores df in
      match df_anomalies with
      | [] => None
      | _ =>
          Some {| on_pr := metric_series df_anomalies pr (@on_pr);
                  on_tasmax := metric_series df_anomalies tasmax (@on_tasmax);
                  on_tasmin := metric_series df_anomalies tasmin (@on_tasmin) |}
      end
  end.

(** ** [detect_extreme_events] *)

(** [monthly_records]: a dict from month to the list of its records; a
    dict iterates in the order in which its keys were first inserted. *)
Fixpoint dict_append (k : Z) (record : WeatherDoc)
    (d : list (Z * list WeatherDoc)) : list (Z * list WeatherDoc) :=
  match d with
  | [] => [(k, [record])]
  | (k', rs) :: t =>
      if (k =? k')%Z then (k', rs ++ [record]) :: t
      else (k', rs) :: dict_append k record t
  end.

Definition monthly_records (weather_data : list WeatherDoc)
    : list (Z * list WeatherDoc) :=
  fold_left (fun d record => dict_append (get_month record) record d)
            weather_data [].

(** [max(l)] and [min(l)]; both raise [ValueError] on the empty list. *)
Definition py_max (l : list R) : result R :=
  match l with
  | [] => Raise ValueError
  | x :: t => Ok (fold_left Rmax t x)
  end.

Definition py_min (l : list R) : result R :=
  match l with
  | [] => Raise ValueError
  | x :: t => Ok (fold_left Rmin t x)
  end.

Inductive ExtremeKind : Type :=
| RecordHighTemp | RecordLowTemp | RecordHighPrecip.

Definition extreme_type (k : ExtremeKind) : WeatherDataType :=
  match k with
  | RecordHighTemp | RecordLowTemp => TEMPERATURE
  | RecordHighPrecip => PRECIPITATION
  end.

Definition extreme_description (k : ExtremeKind) (m : Z) (v : R) (y : Z) (z : R)
    : Description :=
  match k with
  | RecordHighTemp => RecordHighTemperature m v y z
  | RecordLowTemp => RecordLowTemperature m v y z
  | RecordHighPrecip => RecordHighPrecipitation m v y z
  end.

(** One of the three [if record[...] == extreme:] blocks of the inner
    loop.  The division by [calculate_std] is Python's: it is not guarded. *)
Definition extreme_check (loc : string) (k : ExtremeKind) (m : Z)
    (record : WeatherDoc) (field : WeatherDoc -> R) (extreme : R)
    (series : list R) : result (list Anomaly) :=
  if Reqb (field record) extreme then
    mean1 <- calculate_mean series ;;
    std1 <- calculate_std series ;;
    z <- py_div (extreme - mean1) std1 ;;
    if Rgeb (Rabs z) 2.0 then
      mean2 <- calculate_mean series ;;
      mean3 <- calculate_mean series ;;
      Ok [ {| id := None;
              weather_data_id := _id record;
              anomaly_type := extreme_type k;
              severity := EXTREME;
              value := Fin extreme;
              expected_value := Fin mean2;
              deviation := Fin (extreme - mean3);
              z_score := Fin z;
              description := extreme_description k m extreme (year record) z;
              location := Some loc;
              monthly_historical_avg := None;
              monthly_anomaly_std := None;
              is_significant := Some false;
              metric_type := None |} ]
    else Ok []
  else Ok [].

(** The body of [for month, records in monthly_records.items()]. *)
Definition month_events (loc : string) (entry : Z * list WeatherDoc)
    : result (list Anomaly) :=
  let '(m, records) := entry in
  if (length records <? 10)%nat then Ok []
  else
    let max_temps := map tasmax_avg records in
    let min_temps := map tasmin_avg records in
    let precips := map pr_total records in
    max_temp <- py_max max_temps ;;
    min_temp <- py_min min_temps ;;
    max_precip <- py_max precips ;;
    per_record <-
      mapM (fun record =>
              high <- extreme_check loc RecordHighTemp m record tasmax_avg max_temp max_temps ;;
              low <- extreme_check loc RecordLowTemp m record tasmin_avg min_temp min_temps ;;
              wet <- extreme_check loc RecordHighPrecip m record pr_total max_precip precips ;;
              Ok (high ++ low ++ wet))
           records ;;
    Ok (concat per_record).

(** The [try] block; an exception anywhere inside loses the whole list. *)
Definition extreme_events_body (loc : string) (weather_data : list WeatherDoc)
    : result (list Anomaly) :=
  match weather_data with
  | [] => Ok []
  | _ =>
      per_month <- mapM (month_events loc) (monthly_records weather_data) ;;
      Ok (concat per_month)
  end.

Definition detect_extreme_events (loc : string) (weather_data : list WeatherDoc)
    : list Anomaly :=
  try_except (extreme_events_body loc weather_data) [].

(** ** [detect_moving_average_anomalies]

    [window_size] is a count; it is a natural number here. *)

(** [l[i]] *)
Definition index {A : Type} (l : list A) (i : nat) : result A :=
  match nth_error l i with
  | Some x => Ok x
  | None => Raise IndexError
  end.

(** [l[start:stop]] for [0 <= start] and [0 <= stop <= len(l)]. *)
Definition slice {A : Type} (l : list A) (start stop : nat) : list A :=
  firstn (stop - start) (skipn start l).

Definition window_stats (window_size : nat) (vals : list R) (i : nat)
    : result (R * R) :=
  let start := Nat.max 0 (i - window_size / 2) in
  let stop := Nat.min (length vals) (i + window_size / 2 + 1) in
  let window_data := slice vals start stop in
  ma <- calculate_mean window_data ;;
  ma_std <- calculate_std window_data ;;
  Ok (ma, ma_std).

Definition moving_average_anomaly (loc : string) (doc : WeatherDoc)
    (current_temp ma_temp z : R) : Anomaly :=
  {| id := None;
     weather_data_id := _id doc;
     anomaly_type := TEMPERATURE;
     severity := determine_severity (Fin z);
     value := Fin current_temp;
     expected_value := Fin ma_temp;
     deviation := Fin (current_temp - ma_temp);
     z_score := Fin z;
     description := MovingAverageAnomaly current_temp ma_temp z;
     location := Some loc;
     monthly_historical_avg := None;
     monthly_anomaly_std := None;
     is_significant := Some false;
     metric_type := None |}.

(** The body of the second loop at index [i]. *)
Definition moving_average_check (loc : string) (weather_data : list WeatherDoc)
    (vals moving_averages moving_stds : list R) (i : nat)
    : result (list Anomaly) :=
  current_temp <- index vals i ;;
  ma_temp <- index moving_averages i ;;
  ma_std <- index moving_stds i ;;
  if Rgtb ma_std 0 then
    z <- py_div (current_temp - ma_temp) ma_std ;;
    if Rgeb (Rabs z) 2.0 then
      doc <- index weather_data i ;;
      Ok [moving_average_anomaly loc doc current_temp ma_temp z]
    else Ok []
  else Ok [].

Definition moving_average_body (loc : string) (weather_data : list WeatherDoc)
    (window_size : nat) : result (list Anomaly) :=
  if (length weather_data <? window_size)%nat then Ok []
  else
    first <- index weather_data 0 ;;
    match tas_avg first with
    | None => Ok []
    | Some _ =>
        vals <- mapM (fun d => match tas_avg d with
                               | Some v => Ok v
                               | None => Raise KeyError
                               end) weather_data ;;
        stats <- mapM (window_stats window_size vals) (seq 0 (length vals)) ;;
        let moving_averages := map fst stats in
        let moving_stds := map snd stats in
        per_index <-
          mapM (moving_average_check loc weather_data vals moving_averages moving_stds)
               (seq window_size (length vals - window_size - window_size)) ;;
        Ok (concat per_index)
    end.

Definition detect_moving_average_anomalies (loc : string)
    (weather_data : list WeatherDoc) (window_size : nat) : list Anomaly :=
  try_except (moving_average_body loc weather_data window_size) [].

(** ** The anomaly collection and [save_anomalies] *)

(** Which calls the storage collaborator rejects. *)
Record Faults : Type := {
  delete_many_rejected : bool;
  insert_many_rejected : bool
}.

Definition option_string_eqb (a b : option string) : bool :=
  match a, b with
  | Some x, Some y => String.eqb x y
  | None, None => true
  | _, _ => false
  end.

(** [anomaly_collection.delete_many({"location": location})] *)
Definition delete_many (f : Faults) (loc : string) (coll : list Anomaly)
    : result (list Anomaly) :=
  if delete_many_rejected f then Raise StorageError
  else Ok (filter (fun a => negb (option_string_eqb (location a) (Some loc))) coll).

(** [anomaly_collection.insert_many(docs)]: the number of inserted ids and
    the collection afterwards. *)
Definition insert_many (f : Faults) (docs : list Anomaly) (coll : list Anomaly)
    : result (nat * list Anomaly) :=
  if insert_many_rejected f then Raise StorageError
  else Ok (length docs, coll ++ docs).

Definition type_eqb (a b : WeatherDataType) : bool :=
  match a, b with
  | TEMPERATURE, TEMPERATURE | PRECIPITATION, PRECIPITATION
  | HUMIDITY, HUMIDITY | PRESSURE, PRESSURE | WIND, WIND => true
  | _, _ => false
  end.

Definition anomaly_key (a : Anomaly) : string * WeatherDataType :=
  (weather_data_id a, anomaly_type a).

Definition key_eqb (k1 k2 : string * WeatherDataType) : bool :=
  String.eqb (fst k1) (fst k2) && type_eqb (snd k1) (snd k2).

(** The duplicate-removal loop with its [seen] set and [unique_anomalies]
    list. *)
Fixpoint remove_duplicates (anomaly_dicts : list Anomaly)
    (seen : list (string * WeatherDataType)) (unique_anomalies : list Anomaly)
    : list Anomaly :=
  match anomaly_dicts with
  | [] => unique_anomalies
  | a :: t =>
      let key := anomaly_key a in
      if existsb (key_eqb key) seen then remove_duplicates t seen unique_anomalies
      else remove_duplicates t (key :: seen) (unique_anomalies ++ [a])
  end.

Inductive SaveMessage : Type :=
| NoAnomaliesToSave
| SuccessfullySaved (n : nat)
| NoNewAnomaliesToSave
| ErrorSavingAnomalies (e : exn).

Record SaveResult : Type := {
  success : bool;
  message : SaveMessage;
  saved_count : nat
}.

Definition save_anomalies (f : Faults) (anomaly_list : list Anomaly)
    (coll : list Anomaly) : SaveResult * list Anomaly :=
  match anomaly_list with
  | [] => ({| success := true; message := NoAnomaliesToSave; saved_count := 0 |}, coll)
  | _ =>
      let unique_anomalies := remove_duplicates anomaly_list [] [] in
      match unique_anomalies with
      | [] => ({| success := true; message := NoNewAnomaliesToSave; saved_count := 0 |}, coll)
      | _ =>
          match insert_many f unique_anomalies coll with
          | Ok (inserted, coll') =>
              ({| success := true; message := SuccessfullySaved inserted;
                  saved_count := inserted |}, coll')
          | Raise e =>
              ({| success := false; message := ErrorSavingAnomalies e;
                  saved_count := 0 |}, coll)
          end
      end
  end.

(** ** [run_full_anomaly_detection] *)

Inductive RunResult : Type :=
| RunReport (ok : bool) (total_detected notebook_anomalies_count extreme_events_count : nat)
    (save_result : SaveResult) (timeseries_data : option (Triple MetricSeries))
| RunError (ok : bool) (error : exn).

Definition run_success (r : RunResult) : bool :=
  match r with
  | RunReport ok _ _ _ _ _ => ok
  | RunError ok _ => ok
  end.

Definition run_full_anomaly_detection (f : Faults) (loc : string)
    (weather_data : list WeatherDoc) (coll : list Anomaly)
    : RunResult * list Anomaly :=
  match delete_many f loc coll with
  | Raise e => (RunError false e, coll)
  | Ok cleared =>
      let notebook_anomalies := get_notebook_style_anomalies loc weather_data in
      let extreme_events := detect_extreme_events loc weather_data in
      let all_anomalies := notebook_anomalies ++ extreme_events in
      let '(save_result, coll') := save_anomalies f all_anomalies cleared in
      let timeseries_data := get_anomaly_timeseries_data weather_data in
      (RunReport true (length all_anomalies) (length notebook_anomalies)
                 (length extreme_events) save_result timeseries_data,
       coll')
  end.

(** * Reference definitions, in the words of the specification *)

(** ** Statistics *)

(** Arithmetic mean, 0 for no value. *)
Definition mean (vs : list R) : R :=
  match vs with
  | [] => 0
  | _ => sum vs / len vs
  end.

(** Sum of the squared distances to the mean. *)
Definition sum_sq (vs : list R) : R :=
  sum (map (fun x => (x - mean vs) ^ 2) vs).

(** Sample standard deviation with divisor [n - 1], 0 for fewer than two
    values. *)
Definition sample_std (vs : list R) : R :=
  if (length vs <? 2)%nat then 0 else sqrt (sum_sq vs / (len vs - 1)).

(** ** The z-score scorer *)

(** The values of one variable over the records of calendar month [m],
    all years together. *)
Definition month_values (c : Row -> R) (df : list Row) (m : Z) : list R :=
  map c (group df_month df m).

(** Monthly baseline: the arithmetic mean of the month's values. *)
Definition baseline (c : Row -> R) (df : list Row) (m : Z) : R :=
  mean (month_values c df m).

(** Deviation: observed value minus the baseline of the record's month. *)
Definition month_deviation (c : Row -> R) (df : list Row) (r : Row) : R :=
  c r - baseline c df (df_month r).

Definition month_deviations (c : Row -> R) (df : list Row) (m : Z) : list R :=
  map (month_deviation c df) (group df_month df m).

(** Anomaly std: sample standard deviation of the month's deviations. *)
Definition anomaly_sd (c : Row -> R) (df : list Row) (m : Z) : R :=
  sample_std (month_deviations c df m).

(** Z-score: deviation / anomaly std, 0 when the month has fewer than two
    records or the std is 0. *)
Definition spec_zscore (c : Row -> R) (df : list Row) (r : Row) : R :=
  let m := df_month r in
  if (length (group df_month df m) <? 2)%nat || Reqb (anomaly_sd c df m) 0
  then 0
  else month_deviation c df r / anomaly_sd c df m.

(** Significant: [|z| >= 2.0]. *)
Definition spec_significant (c : Row -> R) (df : list Row) (r : Row) : bool :=
  Rgeb (Rabs (spec_zscore c df r)) 2.0.

(** The row of [df_anomalies] that the specification describes for the
    record [r]; the std column is NaN where pandas has no sample std. *)
Definition scored_row (df : list Row) (r : Row) : AnomalyRow :=
  let m := df_month r in
  {| base := r;
     monthly_avg_historical := tmap (fun c => Fin (baseline c df m)) raw_columns;
     anomaly := tmap (fun c => Fin (month_deviation c df r)) raw_columns;
     anomaly_std :=
       tmap (fun c => if (length (group df_month df m) <? 2)%nat then NaN
                      else Fin (anomaly_sd c df m)) raw_columns;
     anomaly_zscore := tmap (fun c => Fin (spec_zscore c df r)) raw_columns;
     anomaly_significant := tmap (fun c => spec_significant c df r) raw_columns |}.

(** ** Fields of the emitted anomalies *)

(** An anomaly of the z-score path: classified from its own z-score, which
    passed the gate. *)
Definition high_or_extreme (a : Anomaly) : Prop :=
  severity a = determine_severity (z_score a) /\
  fge (fabs (z_score a)) zscore_threshold = true /\
  (severity a = HIGH \/ severity a = EXTREME).

(** What C10 says of an anomaly of the two secondary detectors: the four
    notebook fields keep their defaults although [|z| >= 2.0] holds. *)
Definition secondary_defaults (a : Anomaly) : Prop :=
  is_significant a = Some false /\
  monthly_historical_avg a = None /\
  monthly_anomaly_std a = None /\
  metric_type a = None /\
  fge (fabs (z_score a)) 2.0 = true.

(** An anomaly of the extreme-event detector: the defaults above, the
    fixed severity and the location of the run. *)
Definition extreme_event_fields (loc : string) (a : Anomaly) : Prop :=
  secondary_defaults a /\ severity a = EXTREME /\ location a = Some loc.

(** What C10 says of an anomaly of the primary path. *)
Definition primary_fields (a : Anomaly) : Prop :=
  is_significant a = Some true /\
  (anomaly_type a = PRECIPITATION /\ metric_type a = None \/
   anomaly_type a = TEMPERATURE /\
     (metric_type a = Some "tasmax"%string \/ metric_type a = Some "tasmin"%string)).

(** ** The moving-average detector *)

(** The average-temperature series, when every record carries the field. *)
Fixpoint tas_series (weather_data : list WeatherDoc) : option (list R) :=
  match weather_data with
  | [] => Some []
  | d :: t =>
      match tas_avg d, tas_series t with
      | Some v, Some vs => Some (v :: vs)
      | _, _ => None
      end
  end.

(** The centered window [i - W/2, i + W/2] clamped to the bounds. *)
Definition window (W : nat) (vals : list R) (i : nat) : list R :=
  slice vals (i - W / 2) (Nat.min (length vals) (i + W / 2 + 1)).

Definition window_mean (W : nat) (vals : list R) (i : nat) : R :=
  mean (window W vals i).

Definition window_std (W : nat) (vals : list R) (i : nat) : R :=
  sample_std (window W vals i).

Definition window_zscore (W : nat) (vals : list R) (i : nat) (v : R) : R :=
  (v - window_mean W vals i) / window_std W vals i.

(** Flagged: window std > 0 and [|z| >= 2.0]. *)
Definition window_flagged (W : nat) (vals : list R) (i : nat) (v : R) : bool :=
  Rgtb (window_std W vals i) 0 && Rgeb (Rabs (window_zscore W vals i v)) 2.0.

Definition moving_average_at (loc : string) (weather_data : list WeatherDoc)
    (W : nat) (vals : list R) (i : nat) : list Anomaly :=
  match nth_error weather_data i, nth_error vals i with
  | Some doc, Some v =>
      if window_flagged W vals i v
      then [moving_average_anomaly loc doc v (window_mean W vals i)
              (window_zscore W vals i v)]
      else []
  | _, _ => []
  end.

(** Nothing for fewer than [W] records or a missing field; otherwise the
    flagged indices among [W, W+1, ..., length - W - 1], in this order. *)
Definition moving_average_spec (loc : string) (weather_data : list WeatherDoc)
    (W : nat) : list Anomaly :=
  if (length weather_data <? W)%nat then []
  else
    match tas_series weather_data with
    | None => []
    | Some vals =>
        flat_map (moving_average_at loc weather_data W vals)
                 (seq W (length weather_data - W - W))
    end.

(** ** The save step and the storage collaborator *)

(** What survives the duplicate removal, written by recursion on the
    input alone. *)
Fixpoint first_occurrences (l : list Anomaly) (seen : list (string * WeatherDataType))
    : list Anomaly :=
  match l with
  | [] => []
  | a :: t =>
      if existsb (key_eqb (anomaly_key a)) seen then first_occurrences t seen
      else a :: first_occurrences t (anomaly_key a :: seen)
  end.

(** A storage collaborator that accepts every call. *)
Definition no_faults : Faults :=
  {| delete_many_rejected := false; insert_many_rejected := false |}.

(** The stored anomalies of one location. *)
Definition at_location (loc : string) (coll : list Anomaly) : list Anomaly :=
  filter (fun a => option_string_eqb (location a) (Some loc)) coll.

Definition has_key (k : string * WeatherDataType) (a : Anomaly) : bool :=
  key_eqb k (anomaly_key a).

(** ** The extreme-event detector *)

(** The records of calendar month [m], all years together. *)
Definition records_of_month (m : Z) (weather_data : list WeatherDoc)
    : list WeatherDoc :=
  filter (fun d => (get_month d =? m)%Z) weather_data.

(** The three extreme checks: which field, and which extreme of it. *)
Definition extreme_field (k : ExtremeKind) : WeatherDoc -> R :=
  match k with
  | RecordHighTemp => tasmax_avg
  | RecordLowTemp => tasmin_avg
  | RecordHighPrecip => pr_total
  end.

(** An anomaly of check [k] for calendar month [m]. *)
Definition describes (k : ExtremeKind) (m : Z) (a : Anomaly) : Prop :=
  exists v y z, description a = extreme_description k m v y z.

(** The month's extreme of check [k]: the maximum, or for the low
    temperature the minimum, of the field over the month's records. *)
Definition month_extreme (k : ExtremeKind) (records : list WeatherDoc) : R :=
  let series := map (extreme_field k) records in
  match k with
  | RecordLowTemp => fold_left Rmin (tl series) (hd 0 series)
  | RecordHighTemp | RecordHighPrecip => fold_left Rmax (tl series) (hd 0 series)
  end.

(** Z-score of the extreme against the month's raw values. *)
Definition extreme_zscore (k : ExtremeKind) (records : list WeatherDoc) : R :=
  let series := map (extreme_field k) records in
  (month_extreme k records - mean series) / sample_std series.

Definition extreme_anomaly (loc : string) (k : ExtremeKind) (m : Z)
    (records : list WeatherDoc) (record : WeatherDoc) : Anomaly :=
  let series := map (extreme_field k) records in
  {| id := None;
     weather_data_id := _id record;
     anomaly_type := extreme_type k;
     severity := EXTREME;
     value := Fin (month_extreme k records);
     expected_value := Fin (mean series);
     deviation := Fin (month_extreme k records - mean series);
     z_score := Fin (extreme_zscore k records);
     description :=
       extreme_description k m (month_extreme k records) (year record)
         (extreme_zscore k records);
     location := Some loc;
     monthly_historical_avg := None;
     monthly_anomaly_std := None;
     is_significant := Some false;
     metric_type := None |}.

(** One anomaly for a record that holds the extreme (ties included) when
    [|z| >= 2.0]. *)
Definition extreme_emitted (loc : string) (m : Z) (records : list WeatherDoc)
    (record : WeatherDoc) (k : ExtremeKind) : list Anomaly :=
  if Reqb (extreme_field k record) (month_extreme k records)
     && Rgeb (Rabs (extreme_zscore k records)) 2.0
  then [extreme_anomaly loc k m records record]
  else [].

(** Nothing for a month of fewer than ten records; otherwise the three
    checks of every record, record by record. *)
Definition month_events_spec (loc : string) (entry : Z * list WeatherDoc)
    : list Anomaly :=
  let '(m, records) := entry in
  if (length records <? 10)%nat then []
  else
    flat_map (fun record =>
                flat_map (extreme_emitted loc m records record)
                         [RecordHighTemp; RecordLowTemp; RecordHighPrecip])
             records.

(** No month of at least ten records has a variable of standard
    deviation 0. *)
Definition regular_months (weather_data : list WeatherDoc) : Prop :=
  forall m k,
    (10 <= length (records_of_month m weather_data))%nat ->
    sample_std (map (extreme_field k) (records_of_month m weather_data)) <> 0.

(** Storage collaborators that reject one call. *)
Definition delete_rejecting : Faults :=
  {| delete_many_rejected := true; insert_many_rejected := false |}.

Definition insert_rejecting : Faults :=
  {| delete_many_rejected := false; insert_many_rejected := true |}.

(** What [save_anomalies] returns when [insert_many] raises. *)
Definition failed_save : SaveResult :=
  {| success := false; message := ErrorSavingAnomalies StorageError; saved_count := 0 |}.

(** * A small data set

    Ten July records of one location: nine ordinary years and one hot
    year, with the same precipitation total every year. *)

Definition july_doc (name : string) (y : Z) (tmax tmin p : R) : WeatherDoc :=
  {| _id := name;
     year := y;
     month := Some 7%Z;
     tasmax_avg := tmax;
     tasmin_avg := tmin;
     tas_avg := Some ((tmax + tmin) / 2);
     pr_total := p |}.

Definition july_spike : list WeatherDoc :=
  [ july_doc "r01" 2001 30 20 50; july_doc "r02" 2002 30 20 50;
    july_doc "r03" 2003 30 20 50; july_doc "r04" 2004 30 20 50;
    july_doc "r05" 2005 30 20 50; july_doc "r06" 2006 30 20 50;
    july_doc "r07" 2007 30 20 50; july_doc "r08" 2008 30 20 50;
    july_doc "r09" 2009 30 20 50; july_doc "r10" 2010 40 30 50 ].

(** The row that [get_weather_dataframe] makes of a valid document. *)
Definition frame_row (d : WeatherDoc) : Row :=
  {| df_id := _id d;
     df_date := (year d, get_month d, 1%Z);
     df_year := year d;
     df_month := get_month d;
     pr := pr_total d;
     tasmax := tasmax_avg d;
     tasmin := tasmin_avg d |}.

Definition july_frame : list Row := map frame_row july_spike.

Definition hot_year : WeatherDoc := july_doc "r10" 2010 40 30 50.

(** The scored row of the hot year. *)
Definition hot_row : AnomalyRow := scored_row july_frame (frame_row hot_year).

(** Nine equal values and a tenth one. *)
Definition spike (a b : R) : list R := [a; a; a; a; a; a; a; a; a; b].

(** * Further reference definitions *)

(** The dates that [datetime(year, month, 1)] accepts. *)
Definition valid_date (d : WeatherDoc) : bool :=
  ((1 <=? year d) && (year d <=? 9999) && (1 <=? get_month d) && (get_month d <=? 12))%Z.

(** The number of [True] entries of a flag column. *)
Definition count_true (flags : list bool) : nat :=
  length (filter (fun b => b) flags).

(** The July data with an eleventh record whose year [datetime] rejects. *)
Definition july_bad_year : list WeatherDoc :=
  july_spike ++ [july_doc "r11" 10000 30 20 50].



(** The six lists of one metric of the time series all have length [n]. *)
Definition series_length (n : nat) (s : MetricSeries) : Prop :=
  length (dates s) = n /\ length (anomalies s) = n /\ length (z_scores s) = n /\
  length (significant s) = n /\ length (values s) = n /\ length (historical_avg s) = n.

(** Ten July records in which all three variables peak in the last year. *)
Definition july_regular : list WeatherDoc :=
  [ july_doc "r01" 2001 30 20 50; july_doc "r02" 2002 30 20 50;
    july_doc "r03" 2003 30 20 50; july_doc "r04" 2004 30 20 50;
    july_doc "r05" 2005 30 20 50; july_doc "r06" 2006 30 20 50;
    july_doc "r07" 2007 30 20 50; july_doc "r08" 2008 30 20 50;
    july_doc "r09" 2009 30 20 50; july_doc "r10" 2010 40 30 60 ].

(** The sign that a record high or a record low must have. *)
Definition extreme_sign (a : Anomaly) : Prop :=
  match description a with
  | RecordHighTemperature _ _ _ z | RecordHighPrecipitation _ _ _ z =>
      z_score a = Fin z /\ 2 <= z
  | RecordLowTemperature _ _ _ z => z_score a = Fin z /\ z <= -2
  | _ => False
  end.

(** What an anomaly of the extreme-event detector says about the data it
    was computed from. *)
Definition emitted_by (loc : string) (weather_data : list WeatherDoc) (a : Anomaly)
    : Prop :=
  exists m k record,
    let records := records_of_month m weather_data in
    In record records /\
    (10 <= length records)%nat /\
    extreme_field k record = month_extreme k records /\
    sample_std (map (extreme_field k) records) <> 0 /\
    2 <= Rabs (extreme_zscore k records) /\
    a = extreme_anomaly loc k m records record.



(** What holds of every anomaly of the moving-average detector. *)
Definition moving_average_fields (weather_data : list WeatherDoc) (a : Anomaly)
    : Prop :=
  (severity a = HIGH \/ severity a = EXTREME) /\
  exists v e z doc,
    anomaly_type a = TEMPERATURE /\
    value a = Fin v /\
    expected_value a = Fin e /\
    deviation a = Fin (v - e) /\
    z_score a = Fin z /\
    severity a = determine_severity (Fin z) /\
    2 <= Rabs z /\
    weather_data_id a = _id doc /\
    In doc weather_data.

(** The stored anomalies of the other locations. *)
Definition elsewhere (loc : string) (coll : list Anomaly) : list Anomaly :=
  filter (fun a => negb (option_string_eqb (location a) (Some loc))) coll.

(** What [save_anomalies] returns when there is nothing to save. *)
Definition nothing_to_save : SaveResult :=
  {| success := true; message := NoAnomaliesToSave; saved_count := 0 |}.

(** * Callers in [main.py] *)

(** [models.APIResponse] *)
Record APIResponse (A : Type) : Type := {
  api_success : bool;
  api_message : string;
  api_data : option A;
  api_error : option string
}.

Arguments api_success {A} a.
Arguments api_message {A} a.
Arguments api_data {A} a.
Arguments api_error {A} a.

(** What an endpoint answers: a body, or an [HTTPException]. *)
Inductive Http (A : Type) : Type :=
| Http200 (body : A)
| HTTPException (status_code : nat).

Arguments Http200 {A} body.
Arguments HTTPException {A} status_code.

(** [POST /anomalies/detect].  Nothing inside the [try] raises:
    [run_full_anomaly_detection] handles its own exceptions. *)
Definition detect_anomalies (f : Faults) (loc : string)
    (weather_data : list WeatherDoc) (coll : list Anomaly)
    : Http (APIResponse RunResult) * list Anomaly :=
  let '(res, coll') := run_full_anomaly_detection f loc weather_data coll in
  (Http200 {| api_success := run_success res;
              api_message := "Anomaly detection completed";
              api_data := Some res;
              api_error := None |},
   coll').


(** * [utils.py] *)

(** The string values of [models.AnomalySeverity]. *)
Definition severity_value (s : AnomalySeverity) : string :=
  match s with
  | LOW => "low"
  | MEDIUM => "medium"
  | HIGH => "high"
  | EXTREME => "extreme"
  end.

Definition categorize_severity (z_score : float) : string :=
  let abs_z := fabs z_score in
  if fge abs_z 3.0 then "extreme"
  else if fge abs_z 2.0 then "high"
  else if fge abs_z 1.5 then "medium"
  else "low".

Definition calculate_moving_average (data : list R) (window_size : nat)
    : result (list R) :=
  if (length data <? window_size)%nat then Ok data
  else
    mapM (fun i =>
            let start := Nat.max 0 (i - window_size / 2) in
            let stop := Nat.min (length data) (i + window_size / 2 + 1) in
            let window_data := slice data start stop in
            py_div (sum window_data) (len window_data))
         (seq 0 (length data)).







(** * Basic facts *)

(** Membership in a list that is written out. *)
Ltac in_list := repeat (first [left; reflexivity | right]).

Lemma Rgeb_true x y : Rgeb x y = true <-> y <= x.
Proof. unfold Rgeb. destruct (Rle_dec y x); split; intros; try easy. Qed.

Lemma Rgeb_false x y : Rgeb x y = false <-> x < y.
Proof. unfold Rgeb. destruct (Rle_dec y x); split; intros; try easy; lra. Qed.

Lemma Rgtb_true x y : Rgtb x y = true <-> y < x.
Proof. unfold Rgtb. destruct (Rlt_dec y x); split; intros; try easy. Qed.

Lemma Rgtb_false x y : Rgtb x y = false <-> x <= y.
Proof. unfold Rgtb. destruct (Rlt_dec y x); split; intros; try easy; lra. Qed.

Lemma Reqb_true x y : Reqb x y = true <-> x = y.
Proof. unfold Reqb. destruct (Req_dec_T x y); split; intros; try easy. Qed.

Lemma Reqb_false x y : Reqb x y = false <-> x <> y.
Proof. unfold Reqb. destruct (Req_dec_T x y); split; intros; try easy. Qed.

Lemma Reqb_refl x : Reqb x x = true.
Proof. now apply Reqb_true. Qed.

Lemma fold_left_Rplus_acc l a : fold_left Rplus l a = a + fold_left Rplus l 0.
Proof.
  revert a. induction l as [|x l IH]; intros a; simpl.
  - lra.
  - rewrite IH, (IH (0 + x)). lra.
Qed.

Lemma sum_nil : sum [] = 0.
Proof. reflexivity. Qed.

Lemma sum_cons x l : sum (x :: l) = x + sum l.
Proof. unfold sum. simpl. rewrite fold_left_Rplus_acc. lra. Qed.

Lemma len_cons {A} (x : A) l : len (x :: l) = len l + 1.
Proof. unfold len. simpl length. rewrite S_INR. reflexivity. Qed.

Lemma len_nonneg {A} (l : list A) : 0 <= len l.
Proof. apply pos_INR. Qed.

Lemma len_pos {A} (l : list A) : l <> [] -> 0 < len l.
Proof.
  destruct l as [|x l]; [easy|]. intros _. rewrite len_cons.
  pose proof (len_nonneg l). lra.
Qed.

Lemma len_ge_2 {A} (l : list A) : (2 <= length l)%nat -> 1 <= len l - 1.
Proof.
  intros H. unfold len. apply le_INR in H. simpl in H. lra.
Qed.

Lemma sum_squares_nonneg (f : R -> R) l : 0 <= sum (map (fun x => f x ^ 2) l).
Proof.
  induction l as [|x l IH]; cbn [map].
  - rewrite sum_nil. lra.
  - rewrite sum_cons. pose proof (pow2_ge_0 (f x)). lra.
Qed.

Lemma sum_sq_nonneg vs : 0 <= sum_sq vs.
Proof. apply (sum_squares_nonneg (fun x => x - mean vs)). Qed.

(** The kernel never raises: its guards cover every division. *)

Lemma calculate_mean_ok vs : calculate_mean vs = Ok (mean vs).
Proof.
  destruct vs as [|x l]; [reflexivity|].
  unfold calculate_mean, mean, py_div.
  assert (H : len (x :: l) <> 0) by (pose proof (len_pos (x :: l)); intros E; rewrite E in *; assert (0 < 0) by (apply H; easy); lra).
  apply Reqb_false in H. rewrite H. reflexivity.
Qed.

Lemma variance_nonneg vs : (2 <= length vs)%nat -> 0 <= sum_sq vs / (len vs - 1).
Proof.
  intros H. apply len_ge_2 in H. pose proof (sum_sq_nonneg vs).
  apply Rmult_le_pos; [assumption|]. apply Rlt_le, Rinv_0_lt_compat. lra.
Qed.

Lemma calculate_std_ok vs : calculate_std vs = Ok (sample_std vs).
Proof.
  unfold calculate_std, sample_std.
  destruct (Nat.ltb_spec (length vs) 2) as [Hlt|Hge]; [reflexivity|].
  rewrite calculate_mean_ok. cbn [bind]. fold (sum_sq vs). unfold py_div.
  pose proof (len_ge_2 vs Hge) as Hlen.
  assert (Hne : len vs - 1 <> 0) by lra.
  apply Reqb_false in Hne. rewrite Hne. cbn [bind]. unfold math_sqrt.
  pose proof (variance_nonneg vs Hge) as Hv.
  assert (Hs : Rgtb 0 (sum_sq vs / (len vs - 1)) = false) by (apply Rgtb_false; lra).
  rewrite Hs. reflexivity.
Qed.

Lemma calculate_z_score_ok v m s :
  calculate_z_score v m s = Ok (if Reqb s 0 then 0 else (v - m) / s).
Proof.
  unfold calculate_z_score, py_div. destruct (Reqb s 0); reflexivity.
Qed.

(** * The statistics kernel *)


(** * Severity *)

Lemma determine_severity_Fin z :
  determine_severity (Fin z) =
    if Rgeb (Rabs z) 2.5 then EXTREME
    else if Rgeb (Rabs z) 2.0 then HIGH
    else if Rgeb (Rabs z) 1.5 then MEDIUM
    else LOW.
Proof. reflexivity. Qed.

Lemma severity_classes (z : R) :
  (determine_severity (Fin z) = EXTREME <-> 2.5 <= Rabs z) /\
  (determine_severity (Fin z) = HIGH <-> 2.0 <= Rabs z < 2.5) /\
  (determine_severity (Fin z) = MEDIUM <-> 1.5 <= Rabs z < 2.0) /\
  (determine_severity (Fin z) = LOW <-> Rabs z < 1.5).
Proof.
  rewrite determine_severity_Fin. unfold Rgeb.
  destruct (Rle_dec 2.5 (Rabs z)); [|destruct (Rle_dec 2.0 (Rabs z));
    [|destruct (Rle_dec 1.5 (Rabs z))]];
  repeat split; intros; try discriminate; try lra.
Qed.

Lemma fabs_idempotent x : fabs (fabs x) = fabs x.
Proof. destruct x; cbn [fabs]; try reflexivity. now rewrite Rabs_Rabsolu. Qed.

Lemma severity_of_magnitude x : determine_severity x = determine_severity (fabs x).
Proof. unfold determine_severity. cbv zeta. now rewrite fabs_idempotent. Qed.

(** What passes the significance gate is classified high or extreme. *)
Lemma severity_of_significant (z : float) :
  fge (fabs z) zscore_threshold = true ->
  fillna 0 z = z /\
  (determine_severity z = HIGH \/ determine_severity z = EXTREME).
Proof.
  unfold zscore_threshold. intros H. split.
  - destruct z; try reflexivity. discriminate.
  - unfold determine_severity. cbv zeta. rewrite H.
    destruct (fge (fabs z) 2.5); auto.
Qed.

(** The last statement of [calculate_anomalies_with_zscores]: the flags are
    taken from the z-scores before NaN is replaced by 0. *)
Lemma scored_rows_gate df row :
  In row (calculate_anomalies_with_zscores df) ->
  exists zraw : Triple float,
    anomaly_significant row = tmap (fun z => fge (fabs z) zscore_threshold) zraw /\
    anomaly_zscore row = tmap (fillna 0) zraw.
Proof.
  unfold calculate_anomalies_with_zscores. intros H.
  apply in_map_iff in H. destruct H as [[[[r avg] an] sd] [<- _]].
  eexists. split; reflexivity.
Qed.

Lemma gated_high_or_extreme (a : Anomaly) (z : float) :
  severity a = determine_severity z ->
  z_score a = z ->
  fge (fabs z) zscore_threshold = true ->
  high_or_extreme a.
Proof.
  intros Hs Hz Hg. unfold high_or_extreme. rewrite Hs, Hz.
  destruct (severity_of_significant z Hg) as [_ Hsev]. auto.
Qed.

Lemma gated_block (a : Anomaly) (zraw : float) :
  severity a = determine_severity (fillna 0 zraw) ->
  z_score a = fillna 0 zraw ->
  Forall high_or_extreme
    (if fge (fabs zraw) zscore_threshold && negb (isna (fillna 0 zraw))
     then [a] else []).
Proof.
  intros Hs Hz.
  destruct (fge (fabs zraw) zscore_threshold) eqn:E; cbn [andb]; [|constructor].
  destruct (negb (isna (fillna 0 zraw))); constructor; [|constructor].
  destruct (severity_of_significant zraw E) as [Hf _].
  rewrite Hf in Hs, Hz. apply (gated_high_or_extreme a zraw Hs Hz E).
Qed.

Lemma row_anomalies_high_or_extreme loc df row :
  In row (calculate_anomalies_with_zscores df) ->
  Forall high_or_extreme (row_anomalies loc row).
Proof.
  intros Hin. destruct (scored_rows_gate df row Hin) as [zraw [Hs Hz]].
  unfold row_anomalies. rewrite Hs. cbn [tmap on_pr on_tasmax on_tasmin].
  assert (Hp : on_pr (anomaly_zscore row) = fillna 0 (on_pr zraw)) by (rewrite Hz; reflexivity).
  assert (Hx : on_tasmax (anomaly_zscore row) = fillna 0 (on_tasmax zraw)) by (rewrite Hz; reflexivity).
  assert (Hn : on_tasmin (anomaly_zscore row) = fillna 0 (on_tasmin zraw)) by (rewrite Hz; reflexivity).
  repeat (apply Forall_app; split).
  - rewrite Hp at 1. apply gated_block; [rewrite <- Hp; reflexivity | exact Hp].
  - rewrite Hx at 1. apply gated_block; [rewrite <- Hx; reflexivity | exact Hx].
  - rewrite Hn at 1. apply gated_block; [rewrite <- Hn; reflexivity | exact Hn].
Qed.

Lemma notebook_anomalies_flat_map loc weather_data :
  get_notebook_style_anomalies loc weather_data =
  flat_map (row_anomalies loc)
    (calculate_anomalies_with_zscores (get_weather_dataframe weather_data)).
Proof.
  unfold get_notebook_style_anomalies.
  destruct (get_weather_dataframe weather_data) as [|r df] eqn:E; [reflexivity|].
  destruct (calculate_anomalies_with_zscores (r :: df)); reflexivity.
Qed.

(** C2: severity depends on [|z|] only, with the four classes of the
    table, and every anomaly of the z-score path, whose gate is
    [|z| >= 2.0], is classified from its own z-score as high or extreme. *)
Theorem C2_severity_table (x : float) (z : R) (loc : string)
    (weather_data : list WeatherDoc) :
  determine_severity x = determine_severity (fabs x) /\
  (determine_severity (Fin z) = EXTREME <-> 2.5 <= Rabs z) /\
  (determine_severity (Fin z) = HIGH <-> 2.0 <= Rabs z < 2.5) /\
  (determine_severity (Fin z) = MEDIUM <-> 1.5 <= Rabs z < 2.0) /\
  (determine_severity (Fin z) = LOW <-> Rabs z < 1.5) /\
  Forall (fun a => severity a = determine_severity (z_score a) /\
                   fge (fabs (z_score a)) 2.0 = true /\
                   (severity a = HIGH \/ severity a = EXTREME))
         (get_notebook_style_anomalies loc weather_data).
Proof.
  pose proof (severity_classes z) as (H1 & H2 & H3 & H4).
  split; [apply severity_of_magnitude|].
  repeat split; try tauto.
  rewrite notebook_anomalies_flat_map.
  apply Forall_flat_map. apply Forall_forall. intros row Hin.
  apply (row_anomalies_high_or_extreme loc _ row Hin).
Qed.

(** * The z-score scorer *)

Lemma In_insert_key k k' l : In k (insert_key k' l) <-> k = k' \/ In k l.
Proof.
  induction l as [|h t IH]; simpl.
  - intuition.
  - destruct (Z.ltb_spec k' h); [simpl; intuition|].
    destruct (Z.eqb_spec k' h); [subst; simpl; intuition|].
    simpl. rewrite IH. intuition.
Qed.

Lemma In_group_keys {A} (key : A -> Z) df k :
  In k (group_keys key df) <-> In k (map key df).
Proof.
  induction df as [|r df IH]; simpl; [tauto|].
  rewrite In_insert_key, IH. intuition.
Qed.

Lemma lookup_map_keys {B} (f : Z -> B) keys k :
  In k keys -> lookup k (map (fun k => (k, f k)) keys) = Some (f k).
Proof.
  induction keys as [|h t IH]; simpl; [tauto|].
  intros H. destruct (Z.eqb_spec k h) as [->|Hne]; [reflexivity|].
  apply IH. destruct H; congruence.
Qed.

Lemma lookup_groupby {A B} (key : A -> Z) (agg : list A -> B) df r :
  In r df ->
  lookup (key r) (groupby_agg key agg df) = Some (agg (group key df (key r))).
Proof.
  intros H. unfold groupby_agg.
  apply (lookup_map_keys (fun k => agg (group key df k))).
  apply In_group_keys, in_map, H.
Qed.

Lemma group_keys_map {A A'} (g : A' -> A) (key : A -> Z) l :
  group_keys key (map g l) = group_keys (fun x => key (g x)) l.
Proof. induction l as [|x l IH]; simpl; [reflexivity|]. now rewrite IH. Qed.

Lemma group_map {A A'} (g : A' -> A) (key : A -> Z) l k :
  group key (map g l) k = map g (group (fun x => key (g x)) l k).
Proof.
  unfold group. induction l as [|x l IH]; simpl; [reflexivity|].
  destruct (key (g x) =? k)%Z; simpl; now rewrite IH.
Qed.

Lemma groupby_agg_map {A A' B} (g : A' -> A) (key : A -> Z) (agg : list A -> B) l :
  groupby_agg key agg (map g l) =
  groupby_agg (fun x => key (g x)) (fun grp => agg (map g grp)) l.
Proof.
  unfold groupby_agg. rewrite group_keys_map.
  apply map_ext. intros k. now rewrite group_map.
Qed.

Lemma In_group {A} (key : A -> Z) df k r :
  In r (group key df k) <-> In r df /\ key r = k.
Proof. unfold group. rewrite filter_In, Z.eqb_eq. tauto. Qed.

Lemma finite_values_Fin l : finite_values (map Fin l) = Some l.
Proof. induction l as [|x l IH]; simpl; [reflexivity|]. now rewrite IH. Qed.

Lemma pd_mean_mean vs : vs <> [] -> pd_mean vs = Fin (mean vs).
Proof. destruct vs; [easy|reflexivity]. Qed.

Lemma pd_std_Fin vs :
  pd_std (map Fin vs) = if (length vs <? 2)%nat then NaN else Fin (sample_std vs).
Proof.
  unfold pd_std, sample_std, sum_sq. rewrite finite_values_Fin.
  destruct (Nat.ltb_spec (length vs) 2); [reflexivity|].
  destruct vs; [simpl in *; lia|]. reflexivity.
Qed.

Lemma sum_map_minus_const c l : sum (map (fun x => x - c) l) = sum l - len l * c.
Proof.
  induction l as [|x l IH]; cbn [map].
  - rewrite sum_nil. unfold len. simpl. lra.
  - rewrite !sum_cons, IH, len_cons. lra.
Qed.

Lemma mean_nonempty vs : vs <> [] -> mean vs = sum vs / len vs.
Proof. destruct vs; [easy|reflexivity]. Qed.

Lemma sum_deviations_zero vs : sum (map (fun x => x - mean vs) vs) = 0.
Proof.
  rewrite sum_map_minus_const.
  destruct vs as [|x l]; [rewrite sum_nil; unfold len; simpl; lra|].
  assert (Hl : 0 < len (x :: l)) by (apply len_pos; easy).
  rewrite mean_nonempty by easy. field. lra.
Qed.

Lemma mean_deviations_zero vs : mean (map (fun x => x - mean vs) vs) = 0.
Proof.
  destruct vs as [|x l] eqn:E; [reflexivity|]. rewrite <- E.
  rewrite mean_nonempty by (subst; easy).
  rewrite sum_deviations_zero. unfold Rdiv. lra.
Qed.

Lemma sum_squares_zero (f : R -> R) l :
  sum (map (fun x => f x ^ 2) l) = 0 -> forall x, In x l -> f x = 0.
Proof.
  induction l as [|y l IH]; cbn [map]; [easy|].
  rewrite sum_cons. intros H x [->|Hin].
  - pose proof (pow2_ge_0 (f x)). pose proof (sum_squares_nonneg f l).
    assert (E : f x ^ 2 = 0) by lra.
    apply Rsqr_0_uniq. unfold Rsqr. lra.
  - apply IH; [|assumption].
    pose proof (pow2_ge_0 (f y)). pose proof (sum_squares_nonneg f l). lra.
Qed.

(** A sample of at least two values whose standard deviation is 0 is
    constant, equal to its mean. *)
Lemma sample_std_zero vs x :
  (2 <= length vs)%nat -> sample_std vs = 0 -> In x vs -> x = mean vs.
Proof.
  intros Hn Hs Hin. unfold sample_std in Hs.
  destruct (Nat.ltb_spec (length vs) 2) as [|_]; [lia|].
  pose proof (variance_nonneg vs Hn) as Hv.
  apply sqrt_eq_0 in Hs; [|assumption].
  pose proof (len_ge_2 vs Hn) as Hl. pose proof (sum_sq_nonneg vs) as Hq.
  assert (E : sum_sq vs = 0).
  { unfold Rdiv in Hs. apply Rmult_integral in Hs. destruct Hs as [|Hs]; [assumption|].
    exfalso. assert (0 < / (len vs - 1)) by (apply Rinv_0_lt_compat; lra). lra. }
  pose proof (sum_squares_zero (fun y => y - mean vs) vs E x Hin) as Hx.
  cbv beta in Hx. lra.
Qed.

Lemma zero_std_zero_deviation vs d :
  let devs := map (fun x => x - mean vs) vs in
  (2 <= length vs)%nat -> sample_std devs = 0 -> In d devs -> d = 0.
Proof.
  intros devs Hn Hs Hin.
  assert (Hd : d = mean devs).
  { apply sample_std_zero; try assumption. unfold devs. now rewrite length_map. }
  rewrite Hd. apply mean_deviations_zero.
Qed.

Lemma monthly_average_lookup df r :
  In r df ->
  lookup (df_month r) (calculate_monthly_historical_averages df) =
  Some (tmap (fun c => Fin (baseline c df (df_month r))) raw_columns).
Proof.
  intros Hin. unfold calculate_monthly_historical_averages.
  rewrite lookup_groupby by assumption. f_equal.
  assert (Hne : group df_month df (df_month r) <> []).
  { intros E. assert (H : In r (group df_month df (df_month r))) by (apply In_group; auto).
    rewrite E in H. destruct H. }
  unfold agg3, tmap, baseline, month_values. cbn [on_pr on_tasmax on_tasmin raw_columns].
  rewrite !pd_mean_mean; try reflexivity;
    intros E; apply map_eq_nil in E; contradiction.
Qed.

Lemma month_deviations_centered c df m :
  month_deviations c df m =
  map (fun x => x - mean (month_values c df m)) (month_values c df m).
Proof.
  unfold month_deviations, month_values. rewrite map_map.
  apply map_ext_in. intros r Hr. apply In_group in Hr. destruct Hr as [_ Hm].
  unfold month_deviation, baseline, month_values. now rewrite Hm.
Qed.

(** In a month of at least two records whose deviations have standard
    deviation 0, every deviation is 0: the division of the scorer is then
    0/0, never x/0 with x <> 0. *)
Lemma degenerate_month_deviation c df r :
  In r df ->
  (2 <= length (group df_month df (df_month r)))%nat ->
  anomaly_sd c df (df_month r) = 0 ->
  month_deviation c df r = 0.
Proof.
  intros Hin Hn Hs. unfold anomaly_sd in Hs.
  assert (Hd : In (month_deviation c df r) (month_deviations c df (df_month r))).
  { unfold month_deviations. apply in_map. apply In_group. auto. }
  rewrite month_deviations_centered in Hs, Hd.
  apply (zero_std_zero_deviation (month_values c df (df_month r))); try assumption.
  unfold month_values. now rewrite length_map.
Qed.

Lemma Rabs_0_lt_2 : Rgeb (Rabs 0) 2.0 = false.
Proof. apply Rgeb_false. rewrite Rabs_R0. lra. Qed.

Lemma scored_component c df r :
  In r df ->
  let m := df_month r in
  let sd := if (length (group df_month df m) <? 2)%nat then NaN
            else Fin (anomaly_sd c df m) in
  let z := fdiv (Fin (month_deviation c df r)) sd in
  fillna 0 z = Fin (spec_zscore c df r) /\
  fge (fabs z) zscore_threshold = spec_significant c df r.
Proof.
  intros Hin m sd z. unfold z, sd, spec_significant, spec_zscore, zscore_threshold.
  fold m. destruct (Nat.ltb_spec (length (group df_month df m)) 2) as [Hlt|Hge].
  - cbn [fdiv fillna fabs fge orb]. now rewrite Rabs_0_lt_2.
  - cbn [orb fdiv]. destruct (Reqb (anomaly_sd c df m) 0) eqn:E.
    + apply Reqb_true in E.
      rewrite (degenerate_month_deviation c df r Hin Hge E), Reqb_refl.
      cbn [fillna fabs fge]. now rewrite Rabs_0_lt_2.
    + cbn [fillna fabs fge]. auto.
Qed.

Lemma anomaly_std_lookup df (A : Row -> Triple float) r :
  In r df ->
  lookup (df_month r)
    (groupby_agg (fun '(r, _, _) => df_month r)
       (agg3 {| on_pr := fun '(_, _, an) => on_pr an;
                on_tasmax := fun '(_, _, an) => on_tasmax an;
                on_tasmin := fun '(_, _, an) => on_tasmin an |} pd_std)
       (map (fun x => (x, A x, tmap (fun c => Fin (month_deviation c df x)) raw_columns)) df)) =
  Some (tmap (fun c => if (length (group df_month df (df_month r)) <? 2)%nat then NaN
                       else Fin (anomaly_sd c df (df_month r))) raw_columns).
Proof.
  intros Hin. rewrite groupby_agg_map. cbv beta iota.
  rewrite (lookup_groupby (fun x => df_month x) _ df r Hin). f_equal.
  change (group (fun x => df_month x) df (df_month r)) with (group df_month df (df_month r)).
  unfold agg3, tmap. cbn [on_pr on_tasmax on_tasmin raw_columns].
  rewrite !map_map. cbv beta iota. cbn [on_pr on_tasmax on_tasmin].
  rewrite <- !(map_map (fun x => month_deviation _ df x) Fin).
  rewrite !pd_std_Fin.
  rewrite !length_map. reflexivity.
Qed.

Lemma scorer_refines_spec (df : list Row) :
  calculate_anomalies_with_zscores df = map (scored_row df) df.
Proof.
  unfold calculate_anomalies_with_zscores, merge_left.
  rewrite !map_map.
  assert (Hinner :
    map (fun x0 : Row =>
           (x0,
            match lookup (df_month x0) (calculate_monthly_historical_averages df) with
            | Some a => a
            | None => nan3
            end,
            tmap2 (fun (c : Row -> R) (a : float) => fsub (Fin (c x0)) a) raw_columns
              match lookup (df_month x0) (calculate_monthly_historical_averages df) with
              | Some a => a
              | None => nan3
              end)) df =
    map (fun x => (x, tmap (fun c => Fin (baseline c df (df_month x))) raw_columns,
                   tmap (fun c => Fin (month_deviation c df x)) raw_columns)) df).
  { apply map_ext_in. intros x Hx. rewrite monthly_average_lookup by assumption. reflexivity. }
  rewrite Hinner. clear Hinner.
  apply map_ext_in. intros r Hr.
  rewrite monthly_average_lookup by assumption.
  rewrite anomaly_std_lookup by assumption.
  unfold scored_row. f_equal.
  all: unfold tmap, tmap2; cbn [on_pr on_tasmax on_tasmin raw_columns fsub];
    fold (month_deviation pr df r); fold (month_deviation tasmax df r);
    fold (month_deviation tasmin df r).
  - destruct (scored_component pr df r Hr) as [-> _].
    destruct (scored_component tasmax df r Hr) as [-> _].
    destruct (scored_component tasmin df r Hr) as [-> _]. reflexivity.
  - destruct (scored_component pr df r Hr) as [_ ->].
    destruct (scored_component tasmax df r Hr) as [_ ->].
    destruct (scored_component tasmin df r Hr) as [_ ->]. reflexivity.
Qed.


(** * Exceptions in loops *)

Lemma mapM_Ok_Forall2 {A B} (f : A -> result B) l ys :
  mapM f l = Ok ys -> Forall2 (fun x y => f x = Ok y) l ys.
Proof.
  revert ys. induction l as [|x l IH]; cbn [mapM]; intros ys H.
  - injection H as <-. constructor.
  - destruct (f x) as [y|e] eqn:Ex; cbn [bind] in H; [|discriminate].
    destruct (mapM f l) as [ys'|e] eqn:El; cbn [bind] in H; [|discriminate].
    injection H as <-. constructor; auto.
Qed.

Lemma mapM_pure {A B} (f : A -> result B) (g : A -> B) l :
  (forall x, In x l -> f x = Ok (g x)) -> mapM f l = Ok (map g l).
Proof.
  induction l as [|x l IH]; intros H; cbn [mapM map]; [reflexivity|].
  rewrite (H x) by (left; reflexivity). cbn [bind].
  rewrite IH by (intros y Hy; apply H; right; assumption). reflexivity.
Qed.

Lemma mapM_raises {A B} (f : A -> result B) l x e :
  In x l -> f x = Raise e -> exists e', mapM f l = Raise e'.
Proof.
  induction l as [|y l IH]; intros Hin Hf; [destruct Hin|].
  cbn [mapM]. destruct Hin as [->|Hin].
  - rewrite Hf. eexists. reflexivity.
  - destruct (f y) as [b|e1]; cbn [bind]; [|eexists; reflexivity].
    destruct (IH Hin Hf) as [e' ->]. eexists. reflexivity.
Qed.

Lemma mapM_concat_Forall {A B} (P : B -> Prop) (f : A -> result (list B)) l ys :
  (forall x y, In x l -> f x = Ok y -> Forall P y) ->
  mapM f l = Ok ys -> Forall P (concat ys).
Proof.
  intros H Hm. apply mapM_Ok_Forall2 in Hm.
  induction Hm as [|x y l ys Hxy _ IH]; cbn [concat]; [constructor|].
  apply Forall_app. split.
  - apply (H x y); [left; reflexivity|assumption].
  - apply IH. intros x' y' Hin. apply H. right. assumption.
Qed.

(** * Fields of the emitted anomalies *)

Lemma extreme_check_defaults loc k m record field extreme series l :
  extreme_check loc k m record field extreme series = Ok l ->
  Forall (extreme_event_fields loc) l.
Proof.
  unfold extreme_check. rewrite !calculate_mean_ok, calculate_std_ok. cbn [bind].
  destruct (Reqb (field record) extreme); [|intros [= <-]; constructor].
  destruct (py_div (extreme - mean series) (sample_std series)) as [z|e];
    cbn [bind]; [|discriminate].
  destruct (Rgeb (Rabs z) 2.0) eqn:E; intros [= <-]; constructor; [|constructor].
  unfold extreme_event_fields, secondary_defaults. cbn. auto 10.
Qed.

Lemma month_events_defaults loc entry l :
  month_events loc entry = Ok l -> Forall (extreme_event_fields loc) l.
Proof.
  destruct entry as [m records]. unfold month_events.
  destruct (length records <? 10)%nat; [intros [= <-]; constructor|].
  destruct (py_max (map tasmax_avg records)) as [mx|]; cbn [bind]; [|discriminate].
  destruct (py_min (map tasmin_avg records)) as [mn|]; cbn [bind]; [|discriminate].
  destruct (py_max (map pr_total records)) as [mp|]; cbn [bind]; [|discriminate].
  match goal with |- context [mapM ?f records] =>
    destruct (mapM f records) as [per|] eqn:E end; cbn [bind]; [|discriminate].
  intros [= <-]. revert E. apply mapM_concat_Forall.
  intros record y _.
  destruct (extreme_check loc RecordHighTemp m record tasmax_avg mx _) as [a|] eqn:Ea;
    cbn [bind]; [|discriminate].
  destruct (extreme_check loc RecordLowTemp m record tasmin_avg mn _) as [b|] eqn:Eb;
    cbn [bind]; [|discriminate].
  destruct (extreme_check loc RecordHighPrecip m record pr_total mp _) as [c|] eqn:Ec;
    cbn [bind]; [|discriminate].
  intros [= <-]. repeat (apply Forall_app; split);
    eapply extreme_check_defaults; eassumption.
Qed.

Lemma extreme_events_defaults loc weather_data :
  Forall (extreme_event_fields loc) (detect_extreme_events loc weather_data).
Proof.
  unfold detect_extreme_events, extreme_events_body.
  destruct weather_data as [|d wd]; [constructor|].
  destruct (mapM (month_events loc) (monthly_records (d :: wd))) as [per|] eqn:E;
    cbn [bind try_except]; [|constructor].
  revert E. apply mapM_concat_Forall. intros x y _. apply month_events_defaults.
Qed.

Lemma moving_average_check_defaults loc wd vals mas sds i l :
  moving_average_check loc wd vals mas sds i = Ok l ->
  Forall secondary_defaults l.
Proof.
  unfold moving_average_check.
  destruct (index vals i) as [v|]; cbn [bind]; [|discriminate].
  destruct (index mas i) as [ma|]; cbn [bind]; [|discriminate].
  destruct (index sds i) as [sd|]; cbn [bind]; [|discriminate].
  destruct (Rgtb sd 0); [|intros [= <-]; constructor].
  destruct (py_div (v - ma) sd) as [z|]; cbn [bind]; [|discriminate].
  destruct (Rgeb (Rabs z) 2.0) eqn:E; [|intros [= <-]; constructor].
  destruct (index wd i) as [doc|]; cbn [bind]; [|discriminate].
  intros [= <-]. constructor; [|constructor].
  unfold secondary_defaults. cbn. auto.
Qed.

Lemma moving_average_defaults loc weather_data window_size :
  Forall secondary_defaults (detect_moving_average_anomalies loc weather_data window_size).
Proof.
  unfold detect_moving_average_anomalies, moving_average_body.
  destruct (length weather_data <? window_size)%nat; [constructor|].
  destruct (index weather_data 0) as [first|]; cbn [bind try_except]; [|constructor].
  destruct (tas_avg first); [|constructor].
  match goal with |- context [mapM ?f weather_data] =>
    destruct (mapM f weather_data) as [vals|] end; cbn [bind try_except]; [|constructor].
  destruct (mapM (window_stats window_size vals) _) as [stats|];
    cbn [bind try_except]; [|constructor].
  match goal with |- context [mapM ?f ?l] =>
    destruct (mapM f l) as [per|] eqn:E end; cbn [bind try_except]; [|constructor].
  revert E. apply mapM_concat_Forall. intros x y _.
  apply moving_average_check_defaults.
Qed.

Lemma row_anomalies_primary loc row : Forall primary_fields (row_anomalies loc row).
Proof.
  unfold row_anomalies. repeat (apply Forall_app; split);
    match goal with |- Forall _ (if ?c then _ else _) => destruct c end;
    constructor; try constructor; unfold primary_fields; cbn; auto.
Qed.

(** C10: the anomalies of the extreme-event detector and of the
    moving-average detector keep [is_significant = False] and leave
    [monthly_historical_avg], [monthly_anomaly_std] and [metric_type] at
    [None], although each of them has [|z| >= 2.0]; those of the z-score
    path have [is_significant = True], and [metric_type] is ['tasmax'] or
    ['tasmin'] on a temperature anomaly and [None] on a precipitation one. *)
Theorem C10_notebook_fields (loc : string) (weather_data : list WeatherDoc)
    (window_size : nat) :
  Forall (fun a => is_significant a = Some false /\
                   monthly_historical_avg a = None /\
                   monthly_anomaly_std a = None /\
                   metric_type a = None /\
                   fge (fabs (z_score a)) 2.0 = true)
         (detect_extreme_events loc weather_data) /\
  Forall (fun a => is_significant a = Some false /\
                   monthly_historical_avg a = None /\
                   monthly_anomaly_std a = None /\
                   metric_type a = None /\
                   fge (fabs (z_score a)) 2.0 = true)
         (detect_moving_average_anomalies loc weather_data window_size) /\
  Forall (fun a => is_significant a = Some true /\
                   (anomaly_type a = PRECIPITATION /\ metric_type a = None \/
                    anomaly_type a = TEMPERATURE /\
                      (metric_type a = Some "tasmax"%string \/
                       metric_type a = Some "tasmin"%string)))
         (get_notebook_style_anomalies loc weather_data).
Proof.
  split; [|split].
  - eapply Forall_impl; [|apply extreme_events_defaults].
    intros a H. apply H.
  - apply moving_average_defaults.
  - rewrite notebook_anomalies_flat_map. apply Forall_flat_map.
    apply Forall_forall. intros row _. apply row_anomalies_primary.
Qed.

(** * The moving-average detector *)

Lemma tas_values_mapM weather_data :
  mapM (fun d => match tas_avg d with
                 | Some v => Ok v
                 | None => Raise KeyError
                 end) weather_data =
  match tas_series weather_data with
  | Some vals => Ok vals
  | None => Raise KeyError
  end.
Proof.
  induction weather_data as [|d wd IH]; cbn [mapM tas_series]; [reflexivity|].
  destruct (tas_avg d) as [v|]; cbn [bind]; [|reflexivity].
  rewrite IH. destruct (tas_series wd); reflexivity.
Qed.

Lemma tas_series_length weather_data vals :
  tas_series weather_data = Some vals -> length vals = length weather_data.
Proof.
  revert vals. induction weather_data as [|d wd IH]; cbn [tas_series]; intros vals H.
  - injection H as <-. reflexivity.
  - destruct (tas_avg d); [|discriminate].
    destruct (tas_series wd) as [vs|]; [|discriminate].
    injection H as <-. cbn [length]. now rewrite (IH vs).
Qed.

Lemma window_stats_ok W vals i :
  window_stats W vals i = Ok (window_mean W vals i, window_std W vals i).
Proof.
  unfold window_stats. rewrite calculate_mean_ok, calculate_std_ok. reflexivity.
Qed.

Lemma nth_error_seq_0 n i : (i < n)%nat -> nth_error (seq 0 n) i = Some i.
Proof.
  intros H. rewrite (nth_error_nth' _ 0%nat) by (now rewrite length_seq).
  now rewrite seq_nth.
Qed.

Lemma index_Some {A} (l : list A) i x : nth_error l i = Some x -> index l i = Ok x.
Proof. unfold index. now intros ->. Qed.

Lemma in_interior W n i :
  In i (seq W (n - W - W)) <-> (W <= i < n - W)%nat.
Proof. rewrite in_seq. lia. Qed.

Lemma moving_average_check_ok loc wd W vals i :
  length vals = length wd ->
  (i < length wd)%nat ->
  let stats := map (fun j => (window_mean W vals j, window_std W vals j))
                   (seq 0 (length vals)) in
  moving_average_check loc wd vals (map fst stats) (map snd stats) i =
  Ok (moving_average_at loc wd W vals i).
Proof.
  intros Hlen Hi stats. unfold moving_average_check, moving_average_at.
  destruct (nth_error wd i) as [doc|] eqn:Ed;
    [|apply nth_error_None in Ed; lia].
  destruct (nth_error vals i) as [v|] eqn:Ev;
    [|apply nth_error_None in Ev; lia].
  rewrite (index_Some _ _ _ Ev). cbn [bind].
  assert (Hs : nth_error stats i = Some (window_mean W vals i, window_std W vals i)).
  { unfold stats. rewrite nth_error_map, nth_error_seq_0 by lia. reflexivity. }
  rewrite (index_Some (map fst stats) i (window_mean W vals i))
    by (rewrite nth_error_map, Hs; reflexivity).
  cbn [bind].
  rewrite (index_Some (map snd stats) i (window_std W vals i))
    by (rewrite nth_error_map, Hs; reflexivity).
  cbn [bind]. unfold window_flagged.
  destruct (Rgtb (window_std W vals i) 0) eqn:Eg; cbn [andb]; [|reflexivity].
  apply Rgtb_true in Eg. unfold py_div.
  assert (Hne : Reqb (window_std W vals i) 0 = false) by (apply Reqb_false; lra).
  rewrite Hne. cbn [bind]. fold (window_zscore W vals i v).
  destruct (Rgeb (Rabs (window_zscore W vals i v)) 2.0); [|reflexivity].
  rewrite (index_Some _ _ _ Ed). reflexivity.
Qed.


(** * Duplicate removal *)

Lemma type_eqb_eq a b : type_eqb a b = true <-> a = b.
Proof. destruct a, b; cbn; split; intros; try reflexivity; discriminate. Qed.

Lemma key_eqb_eq k1 k2 : key_eqb k1 k2 = true <-> k1 = k2.
Proof.
  destruct k1 as [s1 t1], k2 as [s2 t2]. unfold key_eqb. cbn [fst snd].
  rewrite andb_true_iff, String.eqb_eq, type_eqb_eq.
  split; [intros [-> ->]; reflexivity | intros [= -> ->]; auto].
Qed.

Lemma key_eqb_refl k : key_eqb k k = true.
Proof. now apply key_eqb_eq. Qed.

Lemma remove_duplicates_acc l seen acc :
  remove_duplicates l seen acc = acc ++ first_occurrences l seen.
Proof.
  revert seen acc. induction l as [|a t IH]; intros seen acc;
    cbn [remove_duplicates first_occurrences].
  - now rewrite app_nil_r.
  - destruct (existsb (key_eqb (anomaly_key a)) seen); rewrite IH; [reflexivity|].
    now rewrite <- app_assoc.
Qed.

Lemma remove_duplicates_first l :
  remove_duplicates l [] [] = first_occurrences l [].
Proof. apply remove_duplicates_acc. Qed.

Lemma first_occurrences_In l seen a :
  In a (first_occurrences l seen) ->
  In a l /\ existsb (key_eqb (anomaly_key a)) seen = false.
Proof.
  revert seen. induction l as [|b t IH]; intros seen; cbn [first_occurrences];
    [intros []|].
  destruct (existsb (key_eqb (anomaly_key b)) seen) eqn:E.
  - intros H. destruct (IH _ H). split; [right|]; assumption.
  - intros [<-|H]; [split; [left; reflexivity|assumption]|].
    destruct (IH _ H) as [Hin Hs]. cbn [existsb] in Hs.
    apply orb_false_iff in Hs. split; [right; assumption|tauto].
Qed.

Lemma first_occurrences_NoDup l seen :
  NoDup (map anomaly_key (first_occurrences l seen)).
Proof.
  revert seen. induction l as [|b t IH]; intros seen; cbn [first_occurrences];
    [constructor|].
  destruct (existsb (key_eqb (anomaly_key b)) seen); [apply IH|].
  cbn [map]. constructor; [|apply IH].
  intros Hin. apply in_map_iff in Hin. destruct Hin as [a [Hk Ha]].
  apply first_occurrences_In in Ha. destruct Ha as [_ Hs].
  cbn [existsb] in Hs. rewrite Hk, key_eqb_refl in Hs. discriminate.
Qed.

Lemma first_occurrences_filter k l seen :
  filter (has_key k) (first_occurrences l seen) =
  if existsb (key_eqb k) seen then []
  else match find (has_key k) l with Some a => [a] | None => [] end.
Proof.
  revert seen. induction l as [|b t IH]; intros seen;
    cbn [first_occurrences find filter].
  - destruct (existsb (key_eqb k) seen); reflexivity.
  - destruct (existsb (key_eqb (anomaly_key b)) seen) eqn:Eb.
    + rewrite IH. destruct (existsb (key_eqb k) seen) eqn:Ek; [reflexivity|].
      destruct (has_key k b) eqn:Ekb; [|reflexivity].
      apply key_eqb_eq in Ekb. subst k. congruence.
    + cbn [filter]. rewrite IH. cbn [existsb].
      change (key_eqb k (anomaly_key b)) with (has_key k b).
      destruct (has_key k b) eqn:Ekb; cbn [orb].
      * apply key_eqb_eq in Ekb. subst k. rewrite Eb. reflexivity.
      * reflexivity.
Qed.

Lemma find_app {A} (p : A -> bool) l1 l2 :
  find p (l1 ++ l2) = match find p l1 with Some x => Some x | None => find p l2 end.
Proof.
  induction l1 as [|x l1 IH]; cbn [app find]; [reflexivity|].
  destruct (p x); [reflexivity|apply IH].
Qed.

Lemma find_none {A} (p : A -> bool) l :
  (forall x, In x l -> p x = false) -> find p l = None.
Proof.
  induction l as [|x l IH]; intros H; cbn [find]; [reflexivity|].
  rewrite (H x) by (left; reflexivity). apply IH. intros y Hy. apply H. now right.
Qed.

(** * The primary path inside the pipeline *)

Lemma dataframe_ids weather_data :
  get_weather_dataframe weather_data = [] \/
  map df_id (get_weather_dataframe weather_data) = map _id weather_data.
Proof.
  unfold get_weather_dataframe. destruct weather_data as [|d wd]; [left; reflexivity|].
  match goal with |- context [mapM ?f ?l] => destruct (mapM f l) as [rows|] eqn:E end;
    cbn [try_except]; [right|left; reflexivity].
  apply mapM_Ok_Forall2 in E.
  induction E as [|rec row l rows Hrow _ IH]; cbn [map]; [reflexivity|].
  rewrite IH. f_equal.
  destruct (datetime (year rec) (get_month rec) 1); cbn [bind] in Hrow; [|discriminate].
  injection Hrow as <-. reflexivity.
Qed.

Lemma dataframe_ids_NoDup weather_data :
  NoDup (map _id weather_data) ->
  NoDup (map df_id (get_weather_dataframe weather_data)).
Proof.
  intros H. destruct (dataframe_ids weather_data) as [-> | ->];
    [constructor|assumption].
Qed.

Lemma scored_rows_base df :
  map base (calculate_anomalies_with_zscores df) = df.
Proof.
  rewrite scorer_refines_spec, map_map. cbn [scored_row base]. apply map_id.
Qed.

Lemma isna_fillna d z : isna (fillna d z) = false.
Proof. destruct z; reflexivity. Qed.

Lemma scored_rows_not_na df row :
  In row (calculate_anomalies_with_zscores df) ->
  isna (on_pr (anomaly_zscore row)) = false /\
  isna (on_tasmax (anomaly_zscore row)) = false /\
  isna (on_tasmin (anomaly_zscore row)) = false.
Proof.
  intros H. destruct (scored_rows_gate df row H) as [zraw [_ ->]].
  cbn [tmap on_pr on_tasmax on_tasmin]. rewrite !isna_fillna. auto.
Qed.

Lemma row_anomalies_origin loc row :
  Forall (fun a => weather_data_id a = df_id (base row) /\ location a = Some loc)
         (row_anomalies loc row).
Proof.
  unfold row_anomalies. repeat (apply Forall_app; split);
    match goal with |- Forall _ (if ?c then _ else _) => destruct c end;
    constructor; try constructor; cbn; auto.
Qed.

Lemma notebook_location loc weather_data :
  Forall (fun a => location a = Some loc) (get_notebook_style_anomalies loc weather_data).
Proof.
  rewrite notebook_anomalies_flat_map. apply Forall_flat_map, Forall_forall.
  intros row _. eapply Forall_impl; [|apply row_anomalies_origin].
  intros a [_ H]. exact H.
Qed.

Lemma extreme_location loc weather_data :
  Forall (fun a => location a = Some loc) (detect_extreme_events loc weather_data).
Proof.
  eapply Forall_impl; [|apply extreme_events_defaults]. intros a (_ & _ & H). exact H.
Qed.

(** The first temperature anomaly of a record flagged on both temperature
    variables is its max-temperature anomaly. *)
Lemma first_temperature_anomaly loc weather_data row rest :
  NoDup (map _id weather_data) ->
  In row (calculate_anomalies_with_zscores (get_weather_dataframe weather_data)) ->
  on_tasmax (anomaly_significant row) = true ->
  find (has_key (df_id (base row), TEMPERATURE))
       (get_notebook_style_anomalies loc weather_data ++ rest) =
  Some (tasmax_anomaly loc row).
Proof.
  intros Hnd Hin Hmax. rewrite notebook_anomalies_flat_map.
  set (df := get_weather_dataframe weather_data) in *.
  set (rows := calculate_anomalies_with_zscores df) in *.
  assert (Hids : NoDup (map (fun r => df_id (base r)) rows)).
  { rewrite <- (map_map base df_id). unfold rows. rewrite scored_rows_base.
    now apply dataframe_ids_NoDup. }
  destruct (scored_rows_not_na df row Hin) as (_ & Hna & _).
  destruct (in_split _ _ Hin) as [l1 [l2 Hsplit]].
  rewrite Hsplit in Hids |- *. rewrite map_app in Hids. cbn [map] in Hids.
  apply NoDup_remove_2 in Hids.
  rewrite flat_map_app. cbn [flat_map]. rewrite <- !app_assoc, find_app.
  rewrite find_none.
  - unfold row_anomalies at 1. rewrite Hmax, Hna. cbn [andb negb].
    rewrite <- !app_assoc, find_app.
    match goal with |- context [if ?c then [precipitation_anomaly loc row] else []] =>
      destruct c end; cbn [find app]; unfold has_key, key_eqb, anomaly_key;
      cbn [fst snd weather_data_id anomaly_type precipitation_anomaly tasmax_anomaly
           type_eqb andb]; rewrite ?String.eqb_refl, ?andb_false_r; reflexivity.
  - intros a Ha. apply in_flat_map in Ha. destruct Ha as [r [Hr Ha]].
    pose proof (row_anomalies_origin loc r) as Ho.
    rewrite Forall_forall in Ho. destruct (Ho a Ha) as [Hid _].
    destruct (has_key (df_id (base row), TEMPERATURE) a) eqn:E; [|reflexivity].
    apply key_eqb_eq in E. unfold anomaly_key in E. injection E as E _.
    exfalso. apply Hids. apply in_or_app. left.
    apply in_map_iff. exists r. split; [congruence|assumption].
Qed.

(** * The pipeline with a storage collaborator that accepts every call *)

Lemma at_location_cleared loc coll cleared :
  delete_many no_faults loc coll = Ok cleared -> at_location loc cleared = [].
Proof.
  unfold delete_many. cbn [no_faults delete_many_rejected]. intros [= <-].
  unfold at_location. induction coll as [|a coll IH]; cbn [filter]; [reflexivity|].
  destruct (option_string_eqb (location a) (Some loc)) eqn:E; cbn [negb filter];
    [|rewrite E]; exact IH.
Qed.

Lemma at_location_all loc l :
  Forall (fun a => location a = Some loc) l -> at_location loc l = l.
Proof.
  unfold at_location. induction 1 as [|a l Ha _ IH]; cbn [filter]; [reflexivity|].
  rewrite Ha. cbn [option_string_eqb]. rewrite String.eqb_refl. now rewrite IH.
Qed.

Lemma at_location_app loc l1 l2 :
  at_location loc (l1 ++ l2) = at_location loc l1 ++ at_location loc l2.
Proof. apply filter_app. Qed.

Lemma first_occurrences_Forall (P : Anomaly -> Prop) l seen :
  Forall P l -> Forall P (first_occurrences l seen).
Proof.
  intros H. apply Forall_forall. intros a Ha.
  apply first_occurrences_In in Ha. rewrite Forall_forall in H. now apply H.
Qed.

Lemma run_persisted loc weather_data coll :
  at_location loc (snd (run_full_anomaly_detection no_faults loc weather_data coll)) =
  remove_duplicates
    (get_notebook_style_anomalies loc weather_data ++ detect_extreme_events loc weather_data)
    [] [].
Proof.
  unfold run_full_anomaly_detection.
  destruct (delete_many no_faults loc coll) as [cleared|] eqn:Ed; [|discriminate].
  pose proof (at_location_cleared loc coll cleared Ed) as Hc.
  set (all := _ ++ _).
  assert (Hall : Forall (fun a => location a = Some loc) all).
  { apply Forall_app. split; [apply notebook_location|apply extreme_location]. }
  destruct (save_anomalies no_faults all cleared) as [sr coll'] eqn:Es. cbn [snd].
  unfold save_anomalies in Es. destruct all as [|a0 all'] eqn:Ea.
  - injection Es as _ <-. exact Hc.
  - rewrite <- Ea in *. rewrite remove_duplicates_first in *.
    pose proof (first_occurrences_Forall _ all [] Hall) as Hu.
    destruct (first_occurrences all []) as [|u0 us] eqn:Eu.
    + injection Es as _ <-. exact Hc.
    + unfold insert_many in Es. cbn [no_faults insert_many_rejected] in Es.
      injection Es as _ <-. rewrite at_location_app, Hc. cbn [app].
      now apply at_location_all.
Qed.

(** C3: with a storage collaborator that accepts every call, the anomalies
    stored for the location after a run are what the duplicate removal
    leaves of the list "primary path, then extreme events": no pair
    (record id, kind) occurs twice, and of each pair the entry enumerated
    first in that list is the one stored.  For a record flagged on both
    max- and min-temperature exactly one temperature anomaly is stored,
    the max-temperature one, which the primary path enumerates after
    precipitation and before min-temperature. *)
Theorem C3_dedup_first_wins (loc : string) (weather_data : list WeatherDoc)
    (coll : list Anomaly) (k : string * WeatherDataType) (row : AnomalyRow) :
  let union :=
    get_notebook_style_anomalies loc weather_data
      ++ detect_extreme_events loc weather_data in
  let persisted :=
    at_location loc (snd (run_full_anomaly_detection no_faults loc weather_data coll)) in
  persisted = remove_duplicates union [] [] /\
  NoDup (map anomaly_key persisted) /\
  filter (has_key k) persisted =
    match find (has_key k) union with Some a => [a] | None => [] end /\
  (NoDup (map _id weather_data) ->
   In row (calculate_anomalies_with_zscores (get_weather_dataframe weather_data)) ->
   on_tasmax (anomaly_significant row) = true ->
   on_tasmin (anomaly_significant row) = true ->
   filter (has_key (df_id (base row), TEMPERATURE)) persisted =
     [tasmax_anomaly loc row] /\
   metric_type (tasmax_anomaly loc row) = Some "tasmax"%string).
Proof.
  intros union persisted. unfold persisted, union.
  rewrite run_persisted. split; [reflexivity|]. rewrite remove_duplicates_first.
  split; [apply first_occurrences_NoDup|].
  split; [now rewrite first_occurrences_filter|].
  intros Hnd Hin Hmax Hmin. split; [|reflexivity].
  rewrite first_occurrences_filter. cbn [existsb].
  now rewrite (first_temperature_anomaly loc weather_data row _ Hnd Hin Hmax).
Qed.

(** * The data set *)

Lemma july_dataframe : get_weather_dataframe july_spike = july_frame.
Proof. reflexivity. Qed.

Lemma july_group : group df_month july_frame 7 = july_frame.
Proof. reflexivity. Qed.

Lemma july_ids_NoDup : NoDup (map _id july_spike).
Proof.
  cbn. repeat constructor; cbn; intuition discriminate.
Qed.

Lemma spike_mean a b : mean (spike a b) = (9 * a + b) / 10.
Proof.
  unfold mean, spike, sum, len. cbn [fold_left length]. 
  replace (INR 10) with 10 by (simpl; lra). field.
Qed.

Lemma spike_sd a b : b = a + 10 ->
  sample_std (map (fun x => x - mean (spike a b)) (spike a b)) = sqrt 10.
Proof.
  intros ->. unfold sample_std. cbn [length map spike Nat.ltb Nat.leb].
  f_equal. unfold sum_sq.
  change [a - mean (spike a (a + 10)); a - mean (spike a (a + 10));
          a - mean (spike a (a + 10)); a - mean (spike a (a + 10));
          a - mean (spike a (a + 10)); a - mean (spike a (a + 10));
          a - mean (spike a (a + 10)); a - mean (spike a (a + 10));
          a - mean (spike a (a + 10)); a + 10 - mean (spike a (a + 10))]
    with (map (fun x => x - mean (spike a (a + 10))) (spike a (a + 10))).
  rewrite mean_deviations_zero, spike_mean.
  unfold sum, len. cbn [map spike fold_left length].
  replace (INR 10) with 10 by (simpl; lra). field.
Qed.

Lemma sqrt_10_bounds : 3 < sqrt 10 < 4.
Proof.
  assert (H0 : 0 < sqrt 10) by (apply sqrt_lt_R0; lra).
  assert (H1 : sqrt 10 * sqrt 10 = 10) by (apply sqrt_sqrt; lra).
  split; nra.
Qed.

Lemma july_sd_spike c a b :
  month_values c july_frame 7 = spike a b -> b = a + 10 ->
  anomaly_sd c july_frame 7 = sqrt 10.
Proof.
  intros Hv Hb. unfold anomaly_sd.
  rewrite month_deviations_centered, Hv. now apply spike_sd.
Qed.

Lemma july_hot_zscore c a b :
  month_values c july_frame 7 = spike a b -> b = a + 10 ->
  c (frame_row hot_year) = b ->
  spec_zscore c july_frame (frame_row hot_year) = 9 / sqrt 10.
Proof.
  intros Hv Hb Hc. unfold spec_zscore.
  change (df_month (frame_row hot_year)) with 7%Z.
  rewrite july_group, (july_sd_spike c a b Hv Hb).
  change (length july_frame <? 2)%nat with false. cbn [orb].
  pose proof sqrt_10_bounds as Hs.
  assert (E : Reqb (sqrt 10) 0 = false) by (apply Reqb_false; lra).
  rewrite E. f_equal. unfold month_deviation, baseline.
  change (df_month (frame_row hot_year)) with 7%Z.
  rewrite Hv, spike_mean, Hc, Hb. field.
Qed.

Lemma july_hot_significant c a b :
  month_values c july_frame 7 = spike a b -> b = a + 10 ->
  c (frame_row hot_year) = b ->
  spec_significant c july_frame (frame_row hot_year) = true.
Proof.
  intros Hv Hb Hc. unfold spec_significant.
  rewrite (july_hot_zscore c a b Hv Hb Hc). apply Rgeb_true.
  pose proof sqrt_10_bounds as Hs.
  assert (H : 2 <= 9 / sqrt 10).
  { apply Rmult_le_reg_r with (sqrt 10); [lra|]. field_simplify; lra. }
  rewrite Rabs_right; lra.
Qed.

Lemma hot_row_In :
  In hot_row (calculate_anomalies_with_zscores (get_weather_dataframe july_spike)).
Proof.
  rewrite july_dataframe, scorer_refines_spec. apply in_map.
  unfold july_frame. apply in_map. unfold july_spike, hot_year.
  in_list.
Qed.

Lemma hot_row_tasmax : on_tasmax (anomaly_significant hot_row) = true.
Proof.
  apply (july_hot_significant tasmax 30 40); [reflexivity|lra|reflexivity].
Qed.

Lemma hot_row_tasmin : on_tasmin (anomaly_significant hot_row) = true.
Proof.
  apply (july_hot_significant tasmin 20 30); [reflexivity|lra|reflexivity].
Qed.

Lemma C3_dedup_witness :
  let persisted :=
    at_location "default"
      (snd (run_full_anomaly_detection no_faults "default" july_spike [])) in
  filter (has_key (df_id (base hot_row), TEMPERATURE)) persisted =
    [tasmax_anomaly "default" hot_row] /\
  metric_type (tasmax_anomaly "default" hot_row) = Some "tasmax"%string.
Proof.
  exact (proj2 (proj2 (proj2
           (C3_dedup_first_wins "default" july_spike []
              (df_id (base hot_row), TEMPERATURE) hot_row)))
           july_ids_NoDup hot_row_In hot_row_tasmax hot_row_tasmin).
Defined.

(** * Constant samples *)

Lemma sum_constant c l : Forall (fun x => x = c) l -> sum l = len l * c.
Proof.
  induction 1 as [|x l Hx _ IH].
  - rewrite sum_nil. unfold len. simpl. lra.
  - rewrite sum_cons, len_cons, IH, Hx. lra.
Qed.

Lemma mean_constant c l : Forall (fun x => x = c) l -> l <> [] -> mean l = c.
Proof.
  intros H Hne. rewrite mean_nonempty by assumption.
  rewrite (sum_constant c l H). pose proof (len_pos l Hne). field. lra.
Qed.

Lemma sum_sq_constant c l : Forall (fun x => x = c) l -> sum_sq l = 0.
Proof.
  intros H. destruct l as [|x0 l0] eqn:E; [reflexivity|]. rewrite <- E in *.
  assert (Hne : l <> []) by (subst; easy).
  unfold sum_sq. rewrite (mean_constant c l H Hne).
  clear E Hne. induction H as [|x l Hx _ IH]; cbn [map]; [apply sum_nil|].
  rewrite sum_cons, IH, Hx. lra.
Qed.

Lemma sample_std_constant c l : Forall (fun x => x = c) l -> sample_std l = 0.
Proof.
  intros H. unfold sample_std. destruct (length l <? 2)%nat; [reflexivity|].
  rewrite (sum_sq_constant c l H). unfold Rdiv. rewrite Rmult_0_l. apply sqrt_0.
Qed.

Lemma fold_Rmax_constant c l : Forall (fun x => x = c) l -> fold_left Rmax l c = c.
Proof.
  induction 1 as [|x l Hx _ IH]; cbn [fold_left]; [reflexivity|].
  rewrite Hx. unfold Rmax at 2. destruct (Rle_dec c c); exact IH.
Qed.

Lemma fold_Rmin_constant c l : Forall (fun x => x = c) l -> fold_left Rmin l c = c.
Proof.
  induction 1 as [|x l Hx _ IH]; cbn [fold_left]; [reflexivity|].
  rewrite Hx. unfold Rmin at 2. destruct (Rle_dec c c); exact IH.
Qed.

Lemma py_max_constant c l : Forall (fun x => x = c) l -> l <> [] -> py_max l = Ok c.
Proof.
  intros H Hne. destruct l as [|x l]; [easy|]. inversion H; subst.
  cbn [py_max]. now rewrite fold_Rmax_constant.
Qed.

Lemma py_min_constant c l : Forall (fun x => x = c) l -> l <> [] -> py_min l = Ok c.
Proof.
  intros H Hne. destruct l as [|x l]; [easy|]. inversion H; subst.
  cbn [py_min]. now rewrite fold_Rmin_constant.
Qed.

(** * Exceptions of the extreme-event detector *)

Lemma mapM_Raise_inv {A B} (f : A -> result B) l e :
  mapM f l = Raise e -> exists x, In x l /\ f x = Raise e.
Proof.
  induction l as [|x l IH]; cbn [mapM]; [discriminate|].
  destruct (f x) as [y|e1] eqn:Ex; cbn [bind].
  - destruct (mapM f l) as [ys|e2]; cbn [bind]; [discriminate|].
    intros [= <-]. destruct (IH eq_refl) as [x' [Hin Hx']].
    exists x'. split; [right|]; assumption.
  - intros [= <-]. exists x. split; [left; reflexivity|assumption].
Qed.

Lemma py_div_zero a : py_div a 0 = Raise ZeroDivisionError.
Proof. unfold py_div. now rewrite Reqb_refl. Qed.

Lemma py_div_Raise a b e : py_div a b = Raise e -> e = ZeroDivisionError.
Proof. unfold py_div. destruct (Reqb b 0); [intros [= <-]; reflexivity|discriminate]. Qed.

(** The check in closed form: the kernel calls succeed, the division is
    the only statement that can raise. *)
Lemma extreme_check_unfold loc k m record field extreme series :
  extreme_check loc k m record field extreme series =
  if Reqb (field record) extreme then
    z <- py_div (extreme - mean series) (sample_std series) ;;
    if Rgeb (Rabs z) 2.0 then
      Ok [ {| id := None;
              weather_data_id := _id record;
              anomaly_type := extreme_type k;
              severity := EXTREME;
              value := Fin extreme;
              expected_value := Fin (mean series);
              deviation := Fin (extreme - mean series);
              z_score := Fin z;
              description := extreme_description k m extreme (year record) z;
              location := Some loc;
              monthly_historical_avg := None;
              monthly_anomaly_std := None;
              is_significant := Some false;
              metric_type := None |} ]
    else Ok []
  else Ok [].
Proof.
  unfold extreme_check. rewrite !calculate_mean_ok, calculate_std_ok. cbn [bind].
  destruct (Reqb (field record) extreme); [|reflexivity].
  destruct (py_div (extreme - mean series) (sample_std series)); cbn [bind]; [|reflexivity].
  destruct (Rgeb (Rabs a) 2.0); reflexivity.
Qed.

Lemma extreme_check_Raise loc k m record field extreme series e :
  extreme_check loc k m record field extreme series = Raise e ->
  e = ZeroDivisionError.
Proof.
  rewrite extreme_check_unfold. destruct (Reqb (field record) extreme); [|discriminate].
  destruct (py_div (extreme - mean series) (sample_std series)) as [z|e1] eqn:E;
    cbn [bind].
  - destruct (Rgeb (Rabs z) 2.0); discriminate.
  - intros [= <-]. now apply py_div_Raise in E.
Qed.

Lemma extreme_check_degenerate loc k m record field c records :
  Forall (fun d => field d = c) records -> In record records ->
  extreme_check loc k m record field c (map field records) = Raise ZeroDivisionError.
Proof.
  intros Hc Hin. rewrite extreme_check_unfold.
  rewrite Forall_forall in Hc. rewrite (Hc record Hin), Reqb_refl.
  assert (Hs : Forall (fun x => x = c) (map field records)).
  { apply Forall_forall. intros x Hx. apply in_map_iff in Hx.
    destruct Hx as [d [<- Hd]]. now apply Hc. }
  rewrite (sample_std_constant c _ Hs), py_div_zero. reflexivity.
Qed.

Lemma long_nonempty {A} (l : list A) : (length l <? 10)%nat = false -> l <> [].
Proof. destruct l; [discriminate|easy]. Qed.

Lemma py_max_Ok l : l <> [] -> exists x, py_max l = Ok x.
Proof. destruct l as [|x t]; [easy|]. intros _. eexists. reflexivity. Qed.

Lemma py_min_Ok l : l <> [] -> exists x, py_min l = Ok x.
Proof. destruct l as [|x t]; [easy|]. intros _. eexists. reflexivity. Qed.

Lemma map_nonempty {A B} (f : A -> B) l : l <> [] -> map f l <> [].
Proof. destruct l; [easy|discriminate]. Qed.

Lemma month_events_Raise loc entry e :
  month_events loc entry = Raise e -> e = ZeroDivisionError.
Proof.
  destruct entry as [m records]. unfold month_events.
  destruct (length records <? 10)%nat eqn:El; [discriminate|].
  pose proof (long_nonempty records El) as Hne.
  destruct (py_max_Ok (map tasmax_avg records) (map_nonempty _ _ Hne)) as [mx ->].
  destruct (py_min_Ok (map tasmin_avg records) (map_nonempty _ _ Hne)) as [mn ->].
  destruct (py_max_Ok (map pr_total records) (map_nonempty _ _ Hne)) as [mp ->].
  cbn [bind].
  match goal with |- context [mapM ?f records] =>
    destruct (mapM f records) as [per|e1] eqn:E end; cbn [bind]; [discriminate|].
  intros [= <-]. apply mapM_Raise_inv in E. destruct E as [record [_ E]].
  destruct (extreme_check loc RecordHighTemp m record tasmax_avg mx _) as [a|] eqn:Ea;
    cbn [bind] in E; [|injection E as <-; now apply extreme_check_Raise in Ea].
  destruct (extreme_check loc RecordLowTemp m record tasmin_avg mn _) as [b|] eqn:Eb;
    cbn [bind] in E; [|injection E as <-; now apply extreme_check_Raise in Eb].
  destruct (extreme_check loc RecordHighPrecip m record pr_total mp _) as [c|] eqn:Ec;
    cbn [bind] in E; [discriminate|injection E as <-; now apply extreme_check_Raise in Ec].
Qed.

Lemma extreme_body_Raise loc weather_data e :
  extreme_events_body loc weather_data = Raise e -> e = ZeroDivisionError.
Proof.
  unfold extreme_events_body. destruct weather_data as [|d wd]; [discriminate|].
  destruct (mapM (month_events loc) (monthly_records (d :: wd))) as [per|e1] eqn:E;
    cbn [bind]; [discriminate|].
  intros [= <-]. apply mapM_Raise_inv in E. destruct E as [entry [_ E]].
  now apply month_events_Raise in E.
Qed.

Lemma month_events_degenerate loc m records k c :
  (10 <= length records)%nat ->
  Forall (fun d => extreme_field k d = c) records ->
  month_events loc (m, records) = Raise ZeroDivisionError.
Proof.
  intros Hlen Hc.
  assert (Hex : exists e, month_events loc (m, records) = Raise e).
  { unfold month_events.
    destruct (Nat.ltb_spec (length records) 10) as [|_]; [lia|].
    assert (Hne : records <> []) by (destruct records; [simpl in Hlen; lia|easy]).
    assert (Hs : Forall (fun x => x = c) (map (extreme_field k) records)).
    { apply Forall_forall. intros x Hx. apply in_map_iff in Hx.
      destruct Hx as [d [<- Hd]]. rewrite Forall_forall in Hc. now apply Hc. }
    pose proof (map_nonempty (extreme_field k) _ Hne) as Hne'.
    destruct (py_max_Ok (map tasmax_avg records) (map_nonempty _ _ Hne)) as [mx Emx].
    destruct (py_min_Ok (map tasmin_avg records) (map_nonempty _ _ Hne)) as [mn Emn].
    destruct (py_max_Ok (map pr_total records) (map_nonempty _ _ Hne)) as [mp Emp].
    rewrite Emx, Emn, Emp. cbn [bind].
    destruct records as [|r0 rest] eqn:Er; [easy|]. rewrite <- Er in *.
    assert (Hin : In r0 records) by (rewrite Er; left; reflexivity).
    match goal with |- context [mapM ?f records] =>
      destruct (mapM_raises f records r0 ZeroDivisionError Hin) as [e' He'];
        [|rewrite He'; eexists; reflexivity] end.
    destruct k; cbn [extreme_field] in Hc, Hs, Hne'.
    - rewrite (py_max_constant c _ Hs Hne') in Emx. injection Emx as <-.
      now rewrite (extreme_check_degenerate loc RecordHighTemp m r0 tasmax_avg c records Hc Hin).
    - rewrite (py_min_constant c _ Hs Hne') in Emn. injection Emn as <-.
      destruct (extreme_check loc RecordHighTemp m r0 tasmax_avg mx _) as [a|e1] eqn:Ea;
        cbn [bind]; [|now rewrite (extreme_check_Raise _ _ _ _ _ _ _ _ Ea)].
      now rewrite (extreme_check_degenerate loc RecordLowTemp m r0 tasmin_avg c records Hc Hin).
    - rewrite (py_max_constant c _ Hs Hne') in Emp. injection Emp as <-.
      destruct (extreme_check loc RecordHighTemp m r0 tasmax_avg mx _) as [a|e1] eqn:Ea;
        cbn [bind]; [|now rewrite (extreme_check_Raise _ _ _ _ _ _ _ _ Ea)].
      destruct (extreme_check loc RecordLowTemp m r0 tasmin_avg mn _) as [b|e1] eqn:Eb;
        cbn [bind]; [|now rewrite (extreme_check_Raise _ _ _ _ _ _ _ _ Eb)].
      now rewrite (extreme_check_degenerate loc RecordHighPrecip m r0 pr_total c records Hc Hin). }
  destruct Hex as [e He]. rewrite He. f_equal. now apply month_events_Raise in He.
Qed.

(** * The dict of monthly records *)

Lemma dict_append_lookup k k' r d :
  lookup k (dict_append k' r d) =
  if (k =? k')%Z
  then Some (match lookup k d with Some rs => rs ++ [r] | None => [r] end)
  else lookup k d.
Proof.
  induction d as [|[k1 rs] t IH]; cbn [dict_append lookup].
  - destruct (k =? k')%Z; reflexivity.
  - destruct (Z.eqb_spec k' k1) as [->|Hne]; cbn [lookup].
    + destruct (k =? k1)%Z; reflexivity.
    + destruct (Z.eqb_spec k k1) as [->|Hne'].
      * destruct (Z.eqb_spec k1 k'); [congruence|reflexivity].
      * apply IH.
Qed.

Lemma monthly_fold_lookup m l d :
  lookup m (fold_left (fun d record => dict_append (get_month record) record d) l d) =
  match lookup m d with
  | Some rs => Some (rs ++ records_of_month m l)
  | None => match records_of_month m l with [] => None | f => Some f end
  end.
Proof.
  revert d. induction l as [|r t IH]; intros d; cbn [fold_left].
  - cbn. destruct (lookup m d); [now rewrite app_nil_r|reflexivity].
  - rewrite IH, dict_append_lookup. unfold records_of_month. cbn [filter].
    rewrite (Z.eqb_sym (get_month r) m).
    destruct (m =? get_month r)%Z; [|reflexivity].
    destruct (lookup m d) as [rs|]; [now rewrite <- app_assoc|reflexivity].
Qed.

Lemma lookup_In {B} k (d : list (Z * B)) v : lookup k d = Some v -> In (k, v) d.
Proof.
  induction d as [|[k1 b] t IH]; cbn [lookup]; [discriminate|].
  destruct (Z.eqb_spec k k1) as [->|_].
  - intros [= ->]. left. reflexivity.
  - intros H. right. now apply IH.
Qed.

Lemma monthly_records_lookup m weather_data :
  lookup m (monthly_records weather_data) =
  match records_of_month m weather_data with [] => None | f => Some f end.
Proof. unfold monthly_records. now rewrite monthly_fold_lookup. Qed.

Lemma monthly_records_In m weather_data :
  records_of_month m weather_data <> [] ->
  In (m, records_of_month m weather_data) (monthly_records weather_data).
Proof.
  intros Hne. apply lookup_In. rewrite monthly_records_lookup.
  destruct (records_of_month m weather_data); [easy|reflexivity].
Qed.

(** A month of at least ten records with a constant variable makes the
    detector divide by zero; the handler then returns the empty list. *)
Lemma degenerate_month_raises loc weather_data m k c :
  (10 <= length (records_of_month m weather_data))%nat ->
  Forall (fun d => extreme_field k d = c) (records_of_month m weather_data) ->
  extreme_events_body loc weather_data = Raise ZeroDivisionError.
Proof.
  intros Hlen Hc.
  assert (Hne : records_of_month m weather_data <> [])
    by (destruct (records_of_month m weather_data); [simpl in Hlen; lia|easy]).
  pose proof (monthly_records_In m weather_data Hne) as Hin.
  pose proof (month_events_degenerate loc m _ k c Hlen Hc) as Hr.
  destruct (mapM_raises _ _ _ _ Hin Hr) as [e He].
  destruct (extreme_events_body loc weather_data) as [l|e'] eqn:Eb.
  - unfold extreme_events_body in Eb. destruct weather_data as [|d wd]; [easy|].
    rewrite He in Eb. discriminate.
  - f_equal. now apply extreme_body_Raise in Eb.
Qed.

Lemma degenerate_month_empty loc weather_data m k c :
  (10 <= length (records_of_month m weather_data))%nat ->
  Forall (fun d => extreme_field k d = c) (records_of_month m weather_data) ->
  detect_extreme_events loc weather_data = [].
Proof.
  intros Hlen Hc. unfold detect_extreme_events.
  now rewrite (degenerate_month_raises loc weather_data m k c Hlen Hc).
Qed.

(** * The extreme-event detector away from zero variance *)

Lemma dict_append_keys k r d x :
  In x (map fst (dict_append k r d)) <-> x = k \/ In x (map fst d).
Proof.
  induction d as [|[k1 rs] t IH]; cbn [dict_append map fst In].
  - intuition.
  - destruct (Z.eqb_spec k k1) as [->|Hne]; cbn [map fst In].
    + intuition.
    + rewrite IH. intuition.
Qed.

Lemma dict_append_NoDup k r d :
  NoDup (map fst d) -> NoDup (map fst (dict_append k r d)).
Proof.
  induction d as [|[k1 rs] t IH]; cbn [dict_append map fst]; intros H.
  - repeat constructor. intros [].
  - inversion H as [|? ? Hnotin Hnd]; subst.
    destruct (Z.eqb_spec k k1) as [->|Hne]; cbn [map fst].
    + constructor; assumption.
    + constructor; [|now apply IH].
      rewrite dict_append_keys. intros [E|Hin]; [congruence|contradiction].
Qed.

Lemma monthly_records_NoDup weather_data :
  NoDup (map fst (monthly_records weather_data)).
Proof.
  unfold monthly_records.
  assert (H : forall l d, NoDup (map fst d) ->
    NoDup (map fst (fold_left (fun d record => dict_append (get_month record) record d) l d))).
  { induction l as [|r t IH]; intros d Hd; cbn [fold_left]; [assumption|].
    apply IH. now apply dict_append_NoDup. }
  apply H. constructor.
Qed.

Lemma In_lookup {B} k (d : list (Z * B)) v :
  NoDup (map fst d) -> In (k, v) d -> lookup k d = Some v.
Proof.
  induction d as [|[k1 b] t IH]; cbn [map fst lookup]; intros Hnd Hin; [destruct Hin|].
  inversion Hnd as [|? ? Hnotin Hnd']; subst.
  destruct Hin as [[= -> ->]|Hin].
  - now rewrite Z.eqb_refl.
  - destruct (Z.eqb_spec k k1) as [->|_]; [|now apply IH].
    exfalso. apply Hnotin. apply in_map_iff. exists (k1, v). auto.
Qed.

(** The dict holds, for each month that occurs, all its records in the
    order of [weather_data]. *)
Lemma monthly_records_entry m records weather_data :
  In (m, records) (monthly_records weather_data) ->
  records = records_of_month m weather_data /\ records <> [].
Proof.
  intros Hin. apply In_lookup in Hin; [|apply monthly_records_NoDup].
  rewrite monthly_records_lookup in Hin.
  destruct (records_of_month m weather_data); [discriminate|].
  injection Hin as <-. split; [reflexivity|discriminate].
Qed.

Lemma py_max_extreme k records :
  k <> RecordLowTemp -> records <> [] ->
  py_max (map (extreme_field k) records) = Ok (month_extreme k records).
Proof.
  intros Hk Hne. destruct records as [|r t]; [easy|].
  destruct k; try easy; reflexivity.
Qed.

Lemma py_min_extreme records :
  records <> [] ->
  py_min (map (extreme_field RecordLowTemp) records) =
  Ok (month_extreme RecordLowTemp records).
Proof. intros Hne. destruct records as [|r t]; [easy|]. reflexivity. Qed.

Lemma extreme_check_regular loc k m records record :
  sample_std (map (extreme_field k) records) <> 0 ->
  extreme_check loc k m record (extreme_field k) (month_extreme k records)
    (map (extreme_field k) records) =
  Ok (extreme_emitted loc m records record k).
Proof.
  intros Hs. rewrite extreme_check_unfold. unfold extreme_emitted.
  destruct (Reqb (extreme_field k record) (month_extreme k records)); cbn [andb];
    [|reflexivity].
  unfold py_div. apply Reqb_false in Hs. rewrite Hs. cbn [bind].
  fold (extreme_zscore k records).
  destruct (Rgeb (Rabs (extreme_zscore k records)) 2.0); reflexivity.
Qed.

Lemma month_events_regular loc m records :
  ((10 <= length records)%nat ->
   forall k, sample_std (map (extreme_field k) records) <> 0) ->
  month_events loc (m, records) = Ok (month_events_spec loc (m, records)).
Proof.
  intros Hreg. unfold month_events, month_events_spec.
  destruct (Nat.ltb_spec (length records) 10) as [|Hlen]; [reflexivity|].
  assert (Hne : records <> []) by (destruct records; [simpl in Hlen; lia|easy]).
  change tasmax_avg with (extreme_field RecordHighTemp).
  change tasmin_avg with (extreme_field RecordLowTemp).
  change pr_total with (extreme_field RecordHighPrecip).
  rewrite (py_max_extreme RecordHighTemp records) by easy.
  rewrite (py_min_extreme records) by easy.
  rewrite (py_max_extreme RecordHighPrecip records) by easy.
  cbn [bind].
  rewrite (mapM_pure _ (fun record =>
             flat_map (extreme_emitted loc m records record)
                      [RecordHighTemp; RecordLowTemp; RecordHighPrecip])).
  - cbn [bind]. now rewrite <- flat_map_concat_map.
  - intros record _.
    rewrite (extreme_check_regular loc RecordHighTemp m records record (Hreg Hlen _)).
    rewrite (extreme_check_regular loc RecordLowTemp m records record (Hreg Hlen _)).
    rewrite (extreme_check_regular loc RecordHighPrecip m records record (Hreg Hlen _)).
    cbn [bind flat_map]. now rewrite app_nil_r.
Qed.

(** Where no qualifying month has a zero standard deviation, the detector
    does what the specification says: months in order of first occurrence,
    nothing for a month of fewer than ten records, and for the others one
    anomaly of severity extreme per record that holds the month's extreme
    with [|z| >= 2.0]. *)
Lemma extreme_events_regular loc weather_data :
  regular_months weather_data ->
  detect_extreme_events loc weather_data =
  flat_map (fun m => month_events_spec loc (m, records_of_month m weather_data))
           (map fst (monthly_records weather_data)).
Proof.
  intros Hreg. unfold detect_extreme_events, extreme_events_body.
  destruct weather_data as [|d wd] eqn:E; [reflexivity|]. rewrite <- E in *.
  rewrite (mapM_pure _ (month_events_spec loc)).
  - cbn [bind try_except]. rewrite <- flat_map_concat_map, flat_map_concat_map.
    rewrite (flat_map_concat_map _ (map fst _)), map_map. f_equal.
    apply map_ext_in. intros [m records] Hin. cbn [fst].
    now destruct (monthly_records_entry m records _ Hin) as [<- _].
  - intros [m records] Hin.
    destruct (monthly_records_entry m records _ Hin) as [-> _].
    apply month_events_regular. intros Hlen k. now apply Hreg.
Qed.

(** * The extreme-event detector on the data set *)

Lemma july_records : records_of_month 7 july_spike = july_spike.
Proof. reflexivity. Qed.

Lemma july_precipitation_constant :
  Forall (fun d => extreme_field RecordHighPrecip d = 50) (records_of_month 7 july_spike).
Proof. rewrite july_records. repeat constructor. Qed.

Lemma july_ten : (10 <= length (records_of_month 7 july_spike))%nat.
Proof. rewrite july_records. cbn. lia. Qed.

Lemma july_extreme_events_empty : detect_extreme_events "default" july_spike = [].
Proof.
  apply (degenerate_month_empty _ _ 7%Z RecordHighPrecip 50);
    [apply july_ten|apply july_precipitation_constant].
Qed.

Lemma spike_raw_sd a b : b = a + 10 -> sample_std (spike a b) = sqrt 10.
Proof.
  intros ->. unfold sample_std. cbn [length spike Nat.ltb Nat.leb].
  f_equal. unfold sum_sq. rewrite spike_mean.
  unfold sum, len. cbn [map spike fold_left length].
  replace (INR 10) with 10 by (simpl; lra). field.
Qed.

Lemma spike_max a b : a <= b -> py_max (spike a b) = Ok b.
Proof.
  intros H. unfold py_max, spike. cbn [fold_left].
  rewrite !(Rmax_left a a) by lra. now rewrite Rmax_right by lra.
Qed.

(** C4: the z-score scorer and the moving-average detector treat a zero
    standard deviation as "not flagged" without raising, and
    [calculate_z_score] has the guard; [detect_extreme_events] divides by
    [calculate_std] without it.  On ten July records with the same
    precipitation total the division raises [ZeroDivisionError] inside the
    detector, and the handler returns the empty list for the whole
    location. *)
Theorem C4_zero_std_division :
  let records := records_of_month 7 july_spike in
  Forall (fun d => pr_total d = 50) records /\
  calculate_std (map pr_total records) = Ok 0 /\
  calculate_z_score 50 50 0 = Ok 0 /\
  extreme_events_body "default" july_spike = Raise ZeroDivisionError /\
  detect_extreme_events "default" july_spike = [].
Proof.
  cbv zeta. split; [apply july_precipitation_constant|].
  split.
  { rewrite calculate_std_ok. f_equal.
    apply (sample_std_constant 50). rewrite july_records. repeat constructor. }
  split; [rewrite calculate_z_score_ok, Reqb_refl; reflexivity|].
  split; [|apply july_extreme_events_empty].
  apply (degenerate_month_raises _ _ 7%Z RecordHighPrecip 50);
    [apply july_ten|apply july_precipitation_constant].
Qed.

(** C5: on the same ten July records the hot year holds the month's
    maximum of the max-temperature, and its z-score against the month's
    raw values is 9 / sqrt 10, above 2.0; the claim asks for an anomaly,
    the detector returns none, because the precipitation check of the
    first record divides by a zero standard deviation. *)
Theorem C5_extreme_event_lost :
  let records := records_of_month 7 july_spike in
  let series := map tasmax_avg records in
  (10 <= length records)%nat /\
  In hot_year records /\
  py_max series = Ok (tasmax_avg hot_year) /\
  (exists z, py_div (tasmax_avg hot_year - mean series) (sample_std series) = Ok z /\
             2.0 <= Rabs z) /\
  detect_extreme_events "default" july_spike = [].
Proof.
  cbv zeta. rewrite july_records.
  split; [cbn; lia|].
  split; [unfold july_spike, hot_year; in_list|].
  change (map tasmax_avg july_spike) with (spike 30 40).
  change (tasmax_avg hot_year) with 40.
  split; [apply spike_max; lra|].
  split; [|apply july_extreme_events_empty].
  rewrite spike_mean, (spike_raw_sd 30 40) by lra.
  pose proof sqrt_10_bounds as Hs.
  exists ((40 - (9 * 30 + 40) / 10) / sqrt 10). split.
  - unfold py_div. assert (E : Reqb (sqrt 10) 0 = false) by (apply Reqb_false; lra).
    now rewrite E.
  - replace ((40 - (9 * 30 + 40) / 10) / sqrt 10) with (9 / sqrt 10) by (field; lra).
    assert (H : 2 <= 9 / sqrt 10).
    { apply Rmult_le_reg_r with (sqrt 10); [lra|]. field_simplify; lra. }
    rewrite Rabs_right; lra.
Qed.

(** C6, as the code has it: a calendar month of at least ten records in
    which the values of one variable are all equal yields no anomaly of
    that variable's extreme check for that month. *)
Theorem C6_degenerate_month_silent (loc : string) (weather_data : list WeatherDoc)
    (m : Z) (k : ExtremeKind) (c : R) :
  (10 <= length (records_of_month m weather_data))%nat ->
  Forall (fun d => extreme_field k d = c) (records_of_month m weather_data) ->
  Forall (fun a => ~ describes k m a) (detect_extreme_events loc weather_data).
Proof.
  intros Hlen Hc. rewrite (degenerate_month_empty loc weather_data m k c Hlen Hc).
  constructor.
Qed.

Lemma C6_degenerate_month_witness :
  Forall (fun a => ~ describes RecordHighPrecip 7 a)
         (detect_extreme_events "default" july_spike).
Proof.
  exact (C6_degenerate_month_silent "default" july_spike 7 RecordHighPrecip 50
           july_ten july_precipitation_constant).
Defined.

(** C6, as stated, fails: ten July records share one precipitation total,
    each of them holds the degenerate extreme, and not one anomaly is
    emitted for them. *)
Lemma C6_counterexample :
  let records := records_of_month 7 july_spike in
  (10 <= length records)%nat /\
  Forall (fun d => pr_total d = 50) records /\
  ~ (forall d, In d records ->
       exists a, In a (detect_extreme_events "default" july_spike) /\
                 weather_data_id a = _id d).
Proof.
  cbv zeta. split; [apply july_ten|]. split; [apply july_precipitation_constant|].
  intros H. rewrite july_records, july_extreme_events_empty in H.
  destruct (H hot_year) as [a [[] _]].
  unfold july_spike, hot_year. in_list.
Qed.

(** * Storage failures *)

Lemma first_occurrences_nonempty a t : first_occurrences (a :: t) [] <> [].
Proof. cbn [first_occurrences existsb]. discriminate. Qed.

Lemma run_delete_rejected f loc weather_data coll :
  delete_many_rejected f = true ->
  run_full_anomaly_detection f loc weather_data coll = (RunError false StorageError, coll).
Proof.
  intros H. unfold run_full_anomaly_detection, delete_many. now rewrite H.
Qed.

Lemma save_insert_rejected f l coll :
  insert_many_rejected f = true -> l <> [] ->
  save_anomalies f l coll = (failed_save, coll).
Proof.
  intros H Hne. unfold save_anomalies. destruct l as [|a t]; [easy|].
  rewrite remove_duplicates_first.
  pose proof (first_occurrences_nonempty a t) as Hu.
  destruct (first_occurrences (a :: t) []) as [|u us]; [easy|].
  unfold insert_many. now rewrite H.
Qed.

Lemma run_insert_rejected f loc weather_data coll :
  delete_many_rejected f = false ->
  insert_many_rejected f = true ->
  let notebook_anomalies := get_notebook_style_anomalies loc weather_data in
  let extreme_events := detect_extreme_events loc weather_data in
  notebook_anomalies ++ extreme_events <> [] ->
  run_full_anomaly_detection f loc weather_data coll =
  (RunReport true (length (notebook_anomalies ++ extreme_events))
     (length notebook_anomalies) (length extreme_events) failed_save
     (get_anomaly_timeseries_data weather_data),
   filter (fun a => negb (option_string_eqb (location a) (Some loc))) coll).
Proof.
  intros Hd Hi nb ex Hne. unfold run_full_anomaly_detection, delete_many.
  rewrite Hd. fold nb ex. now rewrite (save_insert_rejected f _ _ Hi Hne).
Qed.

Lemma july_anomalies_nonempty :
  get_notebook_style_anomalies "default" july_spike
    ++ detect_extreme_events "default" july_spike <> [].
Proof.
  assert (H : In (tasmax_anomaly "default" hot_row)
                 (get_notebook_style_anomalies "default" july_spike)).
  { rewrite notebook_anomalies_flat_map. apply in_flat_map.
    exists hot_row. split; [apply hot_row_In|].
    destruct (scored_rows_not_na _ _ hot_row_In) as (_ & Hna & _).
    unfold row_anomalies. rewrite hot_row_tasmax, Hna. cbn [andb negb].
    apply in_or_app. right. left. reflexivity. }
  intros E. apply app_eq_nil in E. destruct E as [E _]. rewrite E in H. destruct H.
Qed.

(** C8, as the code has it: a rejected [delete_many] makes the run report
    [success = False] and leaves the collection as it was; a rejected
    [insert_many] is caught inside [save_anomalies], so the run still
    reports [success = True] with the counts of what it detected, and only
    the nested [save_result] says [success = False] with [saved_count = 0];
    the collection then holds nothing for the location, and the anomaly
    records themselves are not part of the result. *)
Theorem C8_storage_rejection (f : Faults) (loc : string)
    (weather_data : list WeatherDoc) (coll : list Anomaly) :
  (delete_many_rejected f = true ->
   run_full_anomaly_detection f loc weather_data coll =
     (RunError false StorageError, coll)) /\
  (delete_many_rejected f = false ->
   insert_many_rejected f = true ->
   get_notebook_style_anomalies loc weather_data
     ++ detect_extreme_events loc weather_data <> [] ->
   exists cleared,
     run_full_anomaly_detection f loc weather_data coll =
       (RunReport true
          (length (get_notebook_style_anomalies loc weather_data
                     ++ detect_extreme_events loc weather_data))
          (length (get_notebook_style_anomalies loc weather_data))
          (length (detect_extreme_events loc weather_data))
          {| success := false;
             message := ErrorSavingAnomalies StorageError;
             saved_count := 0 |}
          (get_anomaly_timeseries_data weather_data),
        cleared) /\
     incl cleared coll /\
     Forall (fun a => location a <> Some loc) cleared).
Proof.
  split; [apply run_delete_rejected|].
  intros Hd Hi Hne. eexists. split; [apply (run_insert_rejected f); assumption|].
  split.
  - intros a Ha. apply filter_In in Ha. tauto.
  - apply Forall_forall. intros a Ha. apply filter_In in Ha. destruct Ha as [_ Ha].
    intros E. rewrite E in Ha. cbn [option_string_eqb] in Ha.
    rewrite String.eqb_refl in Ha. discriminate.
Qed.

Lemma C8_storage_rejection_witness :
  run_full_anomaly_detection delete_rejecting "default" july_spike [] =
    (RunError false StorageError, []) /\
  exists cleared,
    run_full_anomaly_detection insert_rejecting "default" july_spike [] =
      (RunReport true
         (length (get_notebook_style_anomalies "default" july_spike
                    ++ detect_extreme_events "default" july_spike))
         (length (get_notebook_style_anomalies "default" july_spike))
         (length (detect_extreme_events "default" july_spike))
         {| success := false;
            message := ErrorSavingAnomalies StorageError;
            saved_count := 0 |}
         (get_anomaly_timeseries_data july_spike),
       cleared) /\
    incl cleared [] /\
    Forall (fun a => location a <> Some "default"%string) cleared.
Proof.
  split.
  - exact (proj1 (C8_storage_rejection delete_rejecting "default" july_spike [])
             eq_refl).
  - exact (proj2 (C8_storage_rejection insert_rejecting "default" july_spike [])
             eq_refl eq_refl july_anomalies_nonempty).
Defined.

(** C8, as stated, fails for a rejected insert: the run over the July data
    has anomalies to save, [insert_many] raises, and the run still reports
    [success = True]. *)
Lemma C8_counterexample :
  let all := get_notebook_style_anomalies "default" july_spike
               ++ detect_extreme_events "default" july_spike in
  all <> [] /\
  insert_many insert_rejecting (remove_duplicates all [] []) [] = Raise StorageError /\
  run_success (fst (run_full_anomaly_detection insert_rejecting "default" july_spike []))
    <> false.
Proof.
  cbv zeta. split; [apply july_anomalies_nonempty|]. split; [reflexivity|].
  rewrite (run_insert_rejected insert_rejecting "default" july_spike [] eq_refl eq_refl
             july_anomalies_nonempty).
  cbn [fst run_success]. discriminate.
Qed.

(** * More on the statistics kernel *)










Lemma sum_le_bound M l : (forall x, In x l -> x <= M) -> sum l <= len l * M.
Proof.
  induction l as [|x l IH]; intros H.
  - rewrite sum_nil. unfold len. simpl. lra.
  - rewrite sum_cons, len_cons.
    assert (x <= M) by (apply H; left; reflexivity).
    assert (sum l <= len l * M) by (apply IH; intros y Hy; apply H; now right).
    lra.
Qed.

Lemma sum_ge_bound M l : (forall x, In x l -> M <= x) -> len l * M <= sum l.
Proof.
  induction l as [|x l IH]; intros H.
  - rewrite sum_nil. unfold len. simpl. lra.
  - rewrite sum_cons, len_cons.
    assert (M <= x) by (apply H; left; reflexivity).
    assert (len l * M <= sum l) by (apply IH; intros y Hy; apply H; now right).
    lra.
Qed.

Lemma mean_le_bound M l : l <> [] -> (forall x, In x l -> x <= M) -> mean l <= M.
Proof.
  intros Hne H. rewrite mean_nonempty by assumption.
  pose proof (len_pos l Hne). pose proof (sum_le_bound M l H).
  apply Rmult_le_reg_r with (len l); [assumption|].
  unfold Rdiv. rewrite Rmult_assoc, Rinv_l by lra. lra.
Qed.

Lemma mean_ge_bound M l : l <> [] -> (forall x, In x l -> M <= x) -> M <= mean l.
Proof.
  intros Hne H. rewrite mean_nonempty by assumption.
  pose proof (len_pos l Hne). pose proof (sum_ge_bound M l H).
  apply Rmult_le_reg_r with (len l); [assumption|].
  unfold Rdiv. rewrite Rmult_assoc, Rinv_l by lra. lra.
Qed.

Lemma fold_Rmax_ge l a : a <= fold_left Rmax l a /\ forall x, In x l -> x <= fold_left Rmax l a.
Proof.
  revert a. induction l as [|y l IH]; intros a; cbn [fold_left].
  - split; [lra|intros x []].
  - destruct (IH (Rmax a y)) as [H1 H2].
    pose proof (Rmax_l a y). pose proof (Rmax_r a y).
    split; [lra|]. intros x [<-|Hx]; [lra|now apply H2].
Qed.

Lemma fold_Rmin_le l a : fold_left Rmin l a <= a /\ forall x, In x l -> fold_left Rmin l a <= x.
Proof.
  revert a. induction l as [|y l IH]; intros a; cbn [fold_left].
  - split; [lra|intros x []].
  - destruct (IH (Rmin a y)) as [H1 H2].
    pose proof (Rmin_l a y). pose proof (Rmin_r a y).
    split; [lra|]. intros x [<-|Hx]; [lra|now apply H2].
Qed.

Lemma sample_std_nonneg vs : 0 <= sample_std vs.
Proof.
  unfold sample_std. destruct (length vs <? 2)%nat; [lra|apply sqrt_pos].
Qed.


(** * The data frame *)

Lemma dataframe_rows weather_data :
  mapM (fun record =>
          date <- datetime (year record) (get_month record) 1 ;;
          Ok {| df_id := _id record;
                df_date := date;
                df_year := year record;
                df_month := get_month record;
                pr := pr_total record;
                tasmax := tasmax_avg record;
                tasmin := tasmin_avg record |})
       weather_data =
  if forallb valid_date weather_data then Ok (map frame_row weather_data)
  else Raise ValueError.
Proof.
  induction weather_data as [|d wd IH]; cbn [mapM forallb map]; [reflexivity|].
  unfold datetime at 1, valid_date at 1.
  destruct ((1 <=? year d) && (year d <=? 9999) && (1 <=? get_month d)
            && (get_month d <=? 12))%Z; cbn [bind andb]; [|reflexivity].
  rewrite IH. destruct (forallb valid_date wd); reflexivity.
Qed.

(** X2: [get_weather_dataframe] is all or nothing: one row per document, in
    order, when every document has a year in 1..9999 and a month in
    1..12, and the empty frame as soon as one document has not. *)
Theorem dataframe_all_or_nothing (weather_data : list WeatherDoc) :
  get_weather_dataframe weather_data =
  if forallb valid_date weather_data then map frame_row weather_data else [].
Proof.
  unfold get_weather_dataframe. destruct weather_data as [|d wd]; [reflexivity|].
  rewrite dataframe_rows. destruct (forallb valid_date (d :: wd)); reflexivity.
Qed.

Lemma invalid_date_empty_frame weather_data d :
  In d weather_data -> valid_date d = false -> get_weather_dataframe weather_data = [].
Proof.
  intros Hin Hd. rewrite dataframe_all_or_nothing.
  destruct (forallb valid_date weather_data) eqn:E; [|reflexivity].
  rewrite forallb_forall in E. rewrite (E d Hin) in Hd. discriminate.
Qed.

(** X3: One document with a date that [datetime] rejects silences the whole
    primary path and the time series of the location. *)
Theorem invalid_date_silences_primary_path (loc : string)
    (weather_data : list WeatherDoc) (d : WeatherDoc) :
  In d weather_data -> valid_date d = false ->
  get_notebook_style_anomalies loc weather_data = [] /\
  get_anomaly_timeseries_data weather_data = None.
Proof.
  intros Hin Hd. pose proof (invalid_date_empty_frame weather_data d Hin Hd) as E.
  unfold get_notebook_style_anomalies, get_anomaly_timeseries_data. rewrite E. auto.
Qed.

Lemma invalid_date_silences_witness :
  get_notebook_style_anomalies "default" july_bad_year = [] /\
  get_anomaly_timeseries_data july_bad_year = None.
Proof.
  apply (invalid_date_silences_primary_path "default" july_bad_year
           (july_doc "r11" 10000 30 20 50)).
  - unfold july_bad_year. apply in_or_app. right. left. reflexivity.
  - reflexivity.
Defined.

(** * The table of monthly averages *)

Lemma insert_key_sorted k keys :
  StronglySorted Z.lt keys -> StronglySorted Z.lt (insert_key k keys).
Proof.
  induction keys as [|h t IH]; intros Hs; cbn [insert_key].
  - repeat constructor.
  - inversion Hs as [|? ? Ht Hh]; subst.
    destruct (Z.ltb_spec k h) as [Hlt|Hge].
    + constructor; [assumption|]. constructor; [assumption|].
      rewrite Forall_forall in Hh |- *. intros x Hx. specialize (Hh x Hx). lia.
    + destruct (Z.eqb_spec k h) as [->|Hne]; [assumption|].
      constructor; [now apply IH|].
      rewrite Forall_forall in Hh |- *. intros x Hx.
      apply In_insert_key in Hx. destruct Hx as [->|Hx]; [lia|now apply Hh].
Qed.

Lemma group_keys_sorted {A} (key : A -> Z) df : StronglySorted Z.lt (group_keys key df).
Proof.
  induction df as [|r df IH]; cbn [group_keys fold_right]; [constructor|].
  now apply insert_key_sorted.
Qed.

Lemma groupby_agg_keys {A B} (key : A -> Z) (agg : list A -> B) df :
  map fst (groupby_agg key agg df) = group_keys key df.
Proof. unfold groupby_agg. rewrite map_map. cbn [fst]. apply map_id. Qed.

(** X4: [calculate_monthly_historical_averages] has one row for each month
    that occurs in the frame, in increasing order of the month, and the
    row of a month holds the mean of each variable over all records of
    that month. *)
Theorem monthly_averages_table (df : list Row) (m : Z) (avg : Triple float) :
  let table := calculate_monthly_historical_averages df in
  StronglySorted Z.lt (map fst table) /\
  (In m (map fst table) <-> In m (map df_month df)) /\
  (In (m, avg) table <->
   In m (map df_month df) /\
   avg = {| on_pr := Fin (mean (map pr (group df_month df m)));
            on_tasmax := Fin (mean (map tasmax (group df_month df m)));
            on_tasmin := Fin (mean (map tasmin (group df_month df m))) |}).
Proof.
  cbv zeta. unfold calculate_monthly_historical_averages.
  rewrite groupby_agg_keys. split; [apply group_keys_sorted|].
  split; [apply In_group_keys|].
  assert (Hagg : In m (map df_month df) ->
    agg3 raw_columns pd_mean (group df_month df m) =
    {| on_pr := Fin (mean (map pr (group df_month df m)));
       on_tasmax := Fin (mean (map tasmax (group df_month df m)));
       on_tasmin := Fin (mean (map tasmin (group df_month df m))) |}).
  { intros Hm. apply in_map_iff in Hm. destruct Hm as [r [Hr Hin]].
    assert (Hne : group df_month df m <> []).
    { intros E. assert (H : In r (group df_month df m)) by (apply In_group; auto).
      rewrite E in H. destruct H. }
    unfold agg3, tmap. cbn [on_pr on_tasmax on_tasmin raw_columns].
    rewrite !pd_mean_mean; try reflexivity; now apply map_nonempty. }
  unfold groupby_agg. rewrite in_map_iff. split.
  - intros [k [[= -> <-] Hk]]. apply In_group_keys in Hk. split; [assumption|].
    now apply Hagg.
  - intros [Hm ->]. exists m. split; [|now apply In_group_keys].
    f_equal. now apply Hagg.
Qed.

(** * Columns of the scored frame *)








(** * What the primary path emits *)






(** * The time series *)

Lemma count_true_cons b l :
  count_true (b :: l) = ((if b then 1 else 0) + count_true l)%nat.
Proof. unfold count_true. cbn [filter]. destruct b; reflexivity. Qed.

Lemma row_anomalies_length loc row :
  isna (on_pr (anomaly_zscore row)) = false ->
  isna (on_tasmax (anomaly_zscore row)) = false ->
  isna (on_tasmin (anomaly_zscore row)) = false ->
  length (row_anomalies loc row) =
  ((if on_pr (anomaly_significant row) then 1 else 0)
   + (if on_tasmax (anomaly_significant row) then 1 else 0)
   + (if on_tasmin (anomaly_significant row) then 1 else 0))%nat.
Proof.
  intros H1 H2 H3. unfold row_anomalies. rewrite H1, H2, H3, !length_app.
  destruct (on_pr (anomaly_significant row)),
           (on_tasmax (anomaly_significant row)),
           (on_tasmin (anomaly_significant row)); reflexivity.
Qed.

Lemma flagged_count loc df rows :
  (forall row, In row rows -> In row (calculate_anomalies_with_zscores df)) ->
  length (flat_map (row_anomalies loc) rows) =
  (count_true (map (fun row => on_pr (anomaly_significant row)) rows)
   + count_true (map (fun row => on_tasmax (anomaly_significant row)) rows)
   + count_true (map (fun row => on_tasmin (anomaly_significant row)) rows))%nat.
Proof.
  induction rows as [|row rows IH]; intros H; [reflexivity|].
  cbn [flat_map map]. rewrite length_app, !count_true_cons.
  destruct (scored_rows_not_na df row (H row (or_introl eq_refl))) as (H1 & H2 & H3).
  rewrite (row_anomalies_length loc row H1 H2 H3).
  rewrite IH by (intros r Hr; apply H; now right). lia.
Qed.

Lemma scored_rows_length df : length (calculate_anomalies_with_zscores df) = length df.
Proof. now rewrite scorer_refines_spec, length_map. Qed.

Lemma dataframe_length weather_data :
  get_weather_dataframe weather_data <> [] ->
  length (get_weather_dataframe weather_data) = length weather_data.
Proof.
  rewrite dataframe_all_or_nothing. destruct (forallb valid_date weather_data);
    [intros _; apply length_map|easy].
Qed.

(** X8: [get_anomaly_timeseries_data] returns the empty dict exactly when the
    data frame is empty, and then the primary path has no anomaly either;
    otherwise every list of every metric has one entry per document, and
    the [True] flags of the three metrics are as many as the anomalies of
    the primary path. *)
Theorem timeseries_matches_anomalies (loc : string) (weather_data : list WeatherDoc) :
  match get_anomaly_timeseries_data weather_data with
  | None =>
      get_weather_dataframe weather_data = [] /\
      get_notebook_style_anomalies loc weather_data = []
  | Some ts =>
      series_length (length weather_data) (on_pr ts) /\
      series_length (length weather_data) (on_tasmax ts) /\
      series_length (length weather_data) (on_tasmin ts) /\
      (count_true (significant (on_pr ts)) + count_true (significant (on_tasmax ts))
       + count_true (significant (on_tasmin ts)))%nat =
        length (get_notebook_style_anomalies loc weather_data)
  end.
Proof.
  rewrite notebook_anomalies_flat_map. unfold get_anomaly_timeseries_data.
  set (df := get_weather_dataframe weather_data).
  destruct df as [|r0 df0] eqn:E; [auto|].
  assert (Hdf : length (r0 :: df0) = length weather_data).
  { rewrite <- E. apply dataframe_length. fold df. rewrite E. discriminate. }
  pose proof (scored_rows_length (r0 :: df0)) as Hlen. rewrite Hdf in Hlen.
  destruct (calculate_anomalies_with_zscores (r0 :: df0)) as [|row rows] eqn:Er.
  - rewrite <- Hdf in Hlen. discriminate.
  - rewrite <- Er in *. cbn [on_pr on_tasmax on_tasmin].
    unfold series_length, metric_series.
    cbn [dates anomalies z_scores significant values historical_avg].
    rewrite !length_map, Hlen.
    repeat split; try reflexivity.
    symmetry. apply (flagged_count loc (r0 :: df0)). auto.
Qed.

(** * More on the dict of monthly records *)

Lemma dict_append_total k r d :
  length (concat (map snd (dict_append k r d))) = S (length (concat (map snd d))).
Proof.
  induction d as [|[k1 rs] t IH]; cbn [dict_append map snd concat]; [reflexivity|].
  destruct (k =? k1)%Z; cbn [map snd concat].
  - rewrite !length_app. cbn [length]. lia.
  - rewrite !length_app, IH. lia.
Qed.

Lemma monthly_fold_total l d :
  length (concat (map snd
    (fold_left (fun d record => dict_append (get_month record) record d) l d))) =
  (length (concat (map snd d)) + length l)%nat.
Proof.
  revert d. induction l as [|r t IH]; intros d; cbn [fold_left length]; [lia|].
  rewrite IH, dict_append_total. lia.
Qed.

(** X9: The grouping of [detect_extreme_events] is a partition of the records
    by month: the keys are pairwise different, the entry of a month is
    the list of all its records in their original order, only months that
    occur have an entry, and no record is lost or duplicated. *)
Theorem monthly_records_partition (weather_data : list WeatherDoc) (m : Z)
    (records : list WeatherDoc) :
  NoDup (map fst (monthly_records weather_data)) /\
  (In (m, records) (monthly_records weather_data) <->
   records = records_of_month m weather_data /\ records <> []) /\
  length (concat (map snd (monthly_records weather_data))) = length weather_data.
Proof.
  split; [apply monthly_records_NoDup|]. split.
  - split; [apply monthly_records_entry|].
    intros [-> Hne]. now apply monthly_records_In.
  - unfold monthly_records. now rewrite monthly_fold_total.
Qed.

(** * The extreme-event detector: soundness *)

Lemma extreme_check_sound loc k m records record l :
  extreme_check loc k m record (extreme_field k) (month_extreme k records)
    (map (extreme_field k) records) = Ok l ->
  Forall (fun a => a = extreme_anomaly loc k m records record /\
                   extreme_field k record = month_extreme k records /\
                   sample_std (map (extreme_field k) records) <> 0 /\
                   2 <= Rabs (extreme_zscore k records)) l.
Proof.
  rewrite extreme_check_unfold.
  destruct (Reqb (extreme_field k record) (month_extreme k records)) eqn:Ef;
    [|intros [= <-]; constructor].
  apply Reqb_true in Ef. unfold py_div.
  destruct (Reqb (sample_std (map (extreme_field k) records)) 0) eqn:Es;
    cbn [bind]; [discriminate|].
  apply Reqb_false in Es. fold (extreme_zscore k records).
  destruct (Rgeb (Rabs (extreme_zscore k records)) 2.0) eqn:Ez;
    intros [= <-]; constructor; [|constructor].
  apply Rgeb_true in Ez. repeat split; try assumption. lra.
Qed.

Lemma month_events_sound loc weather_data m l :
  records_of_month m weather_data <> [] ->
  month_events loc (m, records_of_month m weather_data) = Ok l ->
  Forall (emitted_by loc weather_data) l.
Proof.
  intros Hne. set (records := records_of_month m weather_data) in *.
  unfold month_events.
  destruct (Nat.ltb_spec (length records) 10) as [|Hlen]; [intros [= <-]; constructor|].
  change tasmax_avg with (extreme_field RecordHighTemp).
  change tasmin_avg with (extreme_field RecordLowTemp).
  change pr_total with (extreme_field RecordHighPrecip).
  rewrite (py_max_extreme RecordHighTemp records) by easy.
  rewrite (py_min_extreme records) by easy.
  rewrite (py_max_extreme RecordHighPrecip records) by easy.
  cbn [bind].
  match goal with |- context [mapM ?f records] =>
    destruct (mapM f records) as [per|] eqn:E end; cbn [bind]; [|discriminate].
  intros [= <-]. revert E. apply mapM_concat_Forall. intros record y Hrec.
  destruct (extreme_check loc RecordHighTemp m record _ _ _) as [a|] eqn:Ea;
    cbn [bind]; [|discriminate].
  destruct (extreme_check loc RecordLowTemp m record _ _ _) as [b|] eqn:Eb;
    cbn [bind]; [|discriminate].
  destruct (extreme_check loc RecordHighPrecip m record _ _ _) as [c|] eqn:Ec;
    cbn [bind]; [|discriminate].
  intros [= <-].
  apply extreme_check_sound in Ea. apply extreme_check_sound in Eb.
  apply extreme_check_sound in Ec.
  repeat (apply Forall_app; split);
    (eapply Forall_impl; [|eassumption]); intros x (Hx & Hf & Hs & Hz);
    [exists m, RecordHighTemp, record | exists m, RecordLowTemp, record
     | exists m, RecordHighPrecip, record]; cbv zeta; fold records; auto 10.
Qed.

Lemma extreme_events_sound loc weather_data :
  Forall (emitted_by loc weather_data) (detect_extreme_events loc weather_data).
Proof.
  unfold detect_extreme_events, extreme_events_body.
  destruct weather_data as [|d wd] eqn:E; [constructor|]. rewrite <- E.
  destruct (mapM (month_events loc) (monthly_records weather_data)) as [per|] eqn:Em;
    cbn [bind try_except]; [|constructor].
  revert Em. apply mapM_concat_Forall. intros [m records] y Hin Hy.
  destruct (monthly_records_entry m records _ Hin) as [-> Hne].
  now apply (month_events_sound loc weather_data m).
Qed.

Lemma month_extreme_bounds k records :
  records <> [] ->
  let series := map (extreme_field k) records in
  match k with
  | RecordLowTemp => month_extreme k records <= mean series
  | RecordHighTemp | RecordHighPrecip => mean series <= month_extreme k records
  end.
Proof.
  intros Hne. destruct records as [|r t]; [easy|]. cbv zeta.
  assert (Hs : map (extreme_field k) (r :: t) <> []) by discriminate.
  destruct k; unfold month_extreme; cbn [map hd tl].
  - apply mean_le_bound; [discriminate|]. intros x [<-|Hx];
      [apply (proj1 (fold_Rmax_ge _ _))|now apply (proj2 (fold_Rmax_ge _ _))].
  - apply mean_ge_bound; [discriminate|]. intros x [<-|Hx];
      [apply (proj1 (fold_Rmin_le _ _))|now apply (proj2 (fold_Rmin_le _ _))].
  - apply mean_le_bound; [discriminate|]. intros x [<-|Hx];
      [apply (proj1 (fold_Rmax_ge _ _))|now apply (proj2 (fold_Rmax_ge _ _))].
Qed.

Lemma Rdiv_nonneg a b : 0 <= a -> 0 < b -> 0 <= a / b.
Proof.
  intros Ha Hb. apply Rmult_le_pos; [assumption|].
  apply Rlt_le, Rinv_0_lt_compat, Hb.
Qed.

(** X12: A record high that the detector emits lies at least two standard
    deviations above the month's mean, a record low at least two below:
    the z-score of a maximum is never negative and that of a minimum
    never positive. *)
Theorem extreme_events_sign (loc : string) (weather_data : list WeatherDoc) :
  Forall extreme_sign (detect_extreme_events loc weather_data).
Proof.
  eapply Forall_impl; [|apply extreme_events_sound].
  intros a (m & k & record & Hin & Hlen & Hf & Hs & Hz & ->). cbv zeta in *.
  set (records := records_of_month m weather_data) in *.
  assert (Hne : records <> []) by (destruct records; [destruct Hin|easy]).
  pose proof (month_extreme_bounds k records Hne) as Hb. cbv zeta in Hb.
  pose proof (sample_std_nonneg (map (extreme_field k) records)) as Hsd.
  assert (Hpos : 0 < sample_std (map (extreme_field k) records)) by lra.
  unfold extreme_sign, extreme_anomaly. cbn [description z_score].
  unfold extreme_zscore in *.
  destruct k; cbn [extreme_description]; (split; [reflexivity|]).
  - rewrite Rabs_right in Hz; [lra|]. apply Rle_ge, Rdiv_nonneg; lra.
  - rewrite Rabs_left1 in Hz; [lra|].
    assert (H : 0 <= (mean (map (extreme_field RecordLowTemp) records)
                      - month_extreme RecordLowTemp records)
                     / sample_std (map (extreme_field RecordLowTemp) records))
      by (apply Rdiv_nonneg; lra).
    unfold Rdiv in *. lra.
  - rewrite Rabs_right in Hz; [lra|]. apply Rle_ge, Rdiv_nonneg; lra.
Qed.

(** * The extreme-event detector: both regimes *)

Lemma july_regular_records m :
  records_of_month m july_regular = if (7 =? m)%Z then july_regular else [].
Proof.
  unfold records_of_month, july_regular.
  cbn [filter get_month month july_doc].
  destruct (7 =? m)%Z; reflexivity.
Qed.

Lemma july_regular_months : regular_months july_regular.
Proof.
  intros m k. rewrite july_regular_records.
  destruct (7 =? m)%Z; [intros _|cbn; lia].
  pose proof sqrt_10_bounds as Hs.
  destruct k.
  - change (map (extreme_field RecordHighTemp) july_regular) with (spike 30 40).
    rewrite (spike_raw_sd 30 40) by lra. lra.
  - change (map (extreme_field RecordLowTemp) july_regular) with (spike 20 30).
    rewrite (spike_raw_sd 20 30) by lra. lra.
  - change (map (extreme_field RecordHighPrecip) july_regular) with (spike 50 60).
    rewrite (spike_raw_sd 50 60) by lra. lra.
Qed.



(** * Extreme events inside the pipeline *)





Lemma existsb_key_In k seen : existsb (key_eqb k) seen = true <-> In k seen.
Proof.
  rewrite existsb_exists. split.
  - intros [x [Hx E]]. apply key_eqb_eq in E. now subst.
  - intros H. exists k. split; [assumption|apply key_eqb_refl].
Qed.





(** * More on the moving-average detector *)

Lemma moving_average_refines loc weather_data W :
  detect_moving_average_anomalies loc weather_data W =
  moving_average_spec loc weather_data W.
Proof.
  unfold detect_moving_average_anomalies, moving_average_body, moving_average_spec.
  destruct (length weather_data <? W)%nat; [reflexivity|].
  destruct weather_data as [|first rest]; [reflexivity|].
  set (wd := first :: rest).
  change (index wd 0) with (Ok first). cbn [bind].
  destruct (tas_avg first) as [v0|] eqn:E0.
  2:{ cbn [try_except]. unfold wd. cbn [tas_series]. now rewrite E0. }
  rewrite tas_values_mapM.
  destruct (tas_series wd) as [vals|] eqn:Es; cbn [bind try_except]; [|reflexivity].
  pose proof (tas_series_length wd vals Es) as Hlen.
  rewrite (mapM_pure _ (fun j => (window_mean W vals j, window_std W vals j)))
    by (intros j _; apply window_stats_ok).
  cbn [bind].
  rewrite (mapM_pure _ (moving_average_at loc wd W vals)).
  - cbn [bind try_except]. rewrite Hlen. symmetry. apply flat_map_concat_map.
  - intros j Hj. rewrite Hlen in Hj. apply in_interior in Hj.
    apply moving_average_check_ok; [assumption|lia].
Qed.



Lemma window_member W vals i v :
  nth_error vals i = Some v -> In v (window W vals i).
Proof.
  intros H. assert (Hi : (i < length vals)%nat) by (apply nth_error_Some; congruence).
  apply (nth_error_In _ (i - (i - W / 2))).
  unfold window, slice. rewrite nth_error_firstn.
  destruct (Nat.ltb_spec (i - (i - W / 2))
              (Nat.min (length vals) (i + W / 2 + 1) - (i - W / 2))) as [_|Hge]; [|lia].
  rewrite nth_error_skipn. replace (i - W / 2 + (i - (i - W / 2)))%nat with i by lia.
  exact H.
Qed.




Lemma moving_average_at_coherent loc weather_data W vals i :
  Forall (fun a => moving_average_fields weather_data a)
         (moving_average_at loc weather_data W vals i).
Proof.
  unfold moving_average_at.
  destruct (nth_error weather_data i) as [doc|] eqn:Ed; [|constructor].
  destruct (nth_error vals i) as [v|]; [|constructor].
  destruct (window_flagged W vals i v) eqn:Ef; constructor; [|constructor].
  unfold window_flagged in Ef. apply andb_true_iff in Ef. destruct Ef as [_ Ez].
  assert (Hsev : fge (fabs (Fin (window_zscore W vals i v))) zscore_threshold = true)
    by exact Ez.
  destruct (severity_of_significant _ Hsev) as [_ Hs].
  apply Rgeb_true in Ez.
  unfold moving_average_fields. split; [exact Hs|].
  exists v, (window_mean W vals i), (window_zscore W vals i v), doc.
  repeat split; try reflexivity; [lra|].
  now apply nth_error_In in Ed.
Qed.

(** X15: Every anomaly of the moving-average detector is a temperature anomaly
    of severity high or extreme (never medium or low), classified from
    its own finite z-score with [|z| >= 2], with deviation = value -
    expected, and with the id of one of the documents. *)
Theorem moving_average_anomalies_coherent (loc : string)
    (weather_data : list WeatherDoc) (W : nat) :
  Forall (moving_average_fields weather_data)
         (detect_moving_average_anomalies loc weather_data W).
Proof.
  rewrite moving_average_refines. unfold moving_average_spec.
  destruct (length weather_data <? W)%nat; [constructor|].
  destruct (tas_series weather_data) as [vals|]; [|constructor].
  apply Forall_flat_map, Forall_forall. intros i _.
  apply moving_average_at_coherent.
Qed.

(** * More on the save step *)

Lemma first_occurrences_length l seen :
  (length (first_occurrences l seen) <= length l)%nat.
Proof.
  revert seen. induction l as [|a t IH]; intros seen; cbn [first_occurrences length];
    [lia|].
  destruct (existsb (key_eqb (anomaly_key a)) seen).
  - specialize (IH seen). lia.
  - cbn [length]. specialize (IH (anomaly_key a :: seen)). lia.
Qed.

Lemma first_occurrences_fixed l seen :
  NoDup (map anomaly_key l) ->
  (forall a, In a l -> ~ In (anomaly_key a) seen) ->
  first_occurrences l seen = l.
Proof.
  revert seen. induction l as [|a t IH]; intros seen Hnd Hs; [reflexivity|].
  cbn [first_occurrences]. cbn [map] in Hnd. inversion Hnd as [|? ? Hnotin Hnd']; subst.
  destruct (existsb (key_eqb (anomaly_key a)) seen) eqn:E.
  - apply existsb_key_In in E. exfalso. apply (Hs a); [left; reflexivity|assumption].
  - f_equal. apply IH; [assumption|].
    intros b Hb [Hk|Hin].
    + apply Hnotin. rewrite Hk. now apply in_map.
    + apply (Hs b); [now right|assumption].
Qed.

Lemma first_occurrences_keys l seen k :
  In k (map anomaly_key l) ->
  In k (map anomaly_key (first_occurrences l seen)) \/ In k seen.
Proof.
  revert seen. induction l as [|a t IH]; intros seen; cbn [map first_occurrences];
    [intros []|].
  intros [<-|Hk].
  - destruct (existsb (key_eqb (anomaly_key a)) seen) eqn:E.
    + right. now apply existsb_key_In.
    + left. left. reflexivity.
  - destruct (existsb (key_eqb (anomaly_key a)) seen) eqn:E.
    + now apply IH.
    + destruct (IH (anomaly_key a :: seen) Hk) as [H|[<-|H]].
      * left. right. assumption.
      * left. left. reflexivity.
      * right. assumption.
Qed.

(** X16: The duplicate removal of [save_anomalies] keeps a subset of its input
    in which every key of the input still occurs, exactly once; a list
    without duplicate keys passes unchanged, so removing duplicates twice
    is the same as once. *)
Theorem remove_duplicates_idempotent (l : list Anomaly) (k : string * WeatherDataType) :
  remove_duplicates (remove_duplicates l [] []) [] [] = remove_duplicates l [] [] /\
  (In k (map anomaly_key l) <-> In k (map anomaly_key (remove_duplicates l [] []))) /\
  NoDup (map anomaly_key (remove_duplicates l [] [])) /\
  incl (remove_duplicates l [] []) l /\
  (NoDup (map anomaly_key l) <-> remove_duplicates l [] [] = l).
Proof.
  rewrite !remove_duplicates_first.
  assert (Hfix : forall l', NoDup (map anomaly_key l') -> first_occurrences l' [] = l')
    by (intros l' H; apply first_occurrences_fixed; [assumption|intros a _ []]).
  split; [apply Hfix, first_occurrences_NoDup|].
  split.
  - split.
    + intros H. destruct (first_occurrences_keys l [] k H) as [H'|[]]. exact H'.
    + intros H. apply in_map_iff in H. destruct H as [a [<- Ha]].
      apply first_occurrences_In in Ha. apply in_map. tauto.
  - split; [apply first_occurrences_NoDup|]. split.
    + intros a Ha. apply first_occurrences_In in Ha. tauto.
    + split; [apply Hfix|]. intros <-. apply first_occurrences_NoDup.
Qed.

(** X17: [save_anomalies] appends the list without duplicates to the
    collection and reports its length; it fails only when there is
    something to insert and [insert_many] is rejected, and a failed save
    leaves the collection as it was and reports 0. *)
Theorem save_anomalies_effect (f : Faults) (l coll : list Anomaly) :
  let unique := remove_duplicates l [] [] in
  let '(res, coll') := save_anomalies f l coll in
  (success res = false <-> insert_many_rejected f = true /\ l <> []) /\
  coll' = coll ++ (if success res then unique else []) /\
  saved_count res = (if success res then length unique else 0%nat) /\
  (saved_count res <= length l)%nat.
Proof.
  cbv zeta. unfold save_anomalies. rewrite remove_duplicates_first.
  pose proof (first_occurrences_length l []) as Hlen.
  destruct l as [|a t].
  - cbn [success saved_count first_occurrences]. rewrite app_nil_r.
    repeat split; try reflexivity; try lia; try discriminate. intros [_ H]. easy.
  - pose proof (first_occurrences_nonempty a t) as Hne.
    destruct (first_occurrences (a :: t) []) as [|u us] eqn:Eu; [easy|].
    unfold insert_many. destruct (insert_many_rejected f); cbn [success saved_count].
    + rewrite app_nil_r. repeat split; try reflexivity; try lia; discriminate.
    + repeat split; try reflexivity; try assumption; try discriminate.
      intros [H _]. discriminate.
Qed.

(** * More on the pipeline *)

Lemma elsewhere_idempotent loc coll : elsewhere loc (elsewhere loc coll) = elsewhere loc coll.
Proof.
  unfold elsewhere. induction coll as [|a coll IH]; cbn [filter]; [reflexivity|].
  destruct (negb (option_string_eqb (location a) (Some loc))) eqn:E; cbn [filter];
    [rewrite E, IH; reflexivity|exact IH].
Qed.

Lemma elsewhere_here loc l :
  Forall (fun a => location a = Some loc) l -> elsewhere loc l = [].
Proof.
  unfold elsewhere. induction 1 as [|a l Ha _ IH]; cbn [filter]; [reflexivity|].
  rewrite Ha. cbn [option_string_eqb]. rewrite String.eqb_refl. exact IH.
Qed.

Lemma elsewhere_app loc l1 l2 :
  elsewhere loc (l1 ++ l2) = elsewhere loc l1 ++ elsewhere loc l2.
Proof. apply filter_app. Qed.

Lemma detected_location loc weather_data :
  Forall (fun a => location a = Some loc)
    (remove_duplicates
       (get_notebook_style_anomalies loc weather_data
          ++ detect_extreme_events loc weather_data) [] []).
Proof.
  rewrite remove_duplicates_first. apply first_occurrences_Forall.
  apply Forall_app. split; [apply notebook_location|apply extreme_location].
Qed.

Lemma run_store f loc weather_data coll :
  snd (run_full_anomaly_detection f loc weather_data coll) =
  if delete_many_rejected f then coll
  else elsewhere loc coll
       ++ (if insert_many_rejected f then []
           else remove_duplicates
                  (get_notebook_style_anomalies loc weather_data
                     ++ detect_extreme_events loc weather_data) [] []).
Proof.
  unfold run_full_anomaly_detection, delete_many.
  destruct (delete_many_rejected f); [reflexivity|]. fold (elsewhere loc coll).
  set (all := _ ++ _).
  pose proof (save_anomalies_effect f all (elsewhere loc coll)) as H. cbv zeta in H.
  destruct (save_anomalies f all (elsewhere loc coll)) as [res coll'].
  destruct H as (Hs & -> & _ & _). cbn [snd]. f_equal.
  destruct (success res) eqn:E.
  - destruct (insert_many_rejected f) eqn:Ei; [|reflexivity].
    destruct all as [|a t]; [reflexivity|].
    assert (true = false) by (apply Hs; split; [reflexivity|discriminate]).
    discriminate.
  - destruct (proj1 Hs eq_refl) as [-> _]. reflexivity.
Qed.

(** X18: A run never touches the stored anomalies of other locations, whatever
    the storage collaborator rejects. *)
Theorem run_leaves_other_locations (f : Faults) (loc : string)
    (weather_data : list WeatherDoc) (coll : list Anomaly) :
  elsewhere loc (snd (run_full_anomaly_detection f loc weather_data coll)) =
  elsewhere loc coll.
Proof.
  rewrite run_store. destruct (delete_many_rejected f); [reflexivity|].
  rewrite elsewhere_app, elsewhere_idempotent.
  destruct (insert_many_rejected f); [apply app_nil_r|].
  rewrite (elsewhere_here loc _ (detected_location loc weather_data)). apply app_nil_r.
Qed.


(** X20: When the detectors find nothing, [insert_many] is not called: the run
    succeeds even with a collaborator that would reject the insert,
    reports zero everywhere, and still has removed the location's old
    anomalies. *)
Theorem nothing_detected_clears (f : Faults) (loc : string)
    (weather_data : list WeatherDoc) (coll : list Anomaly) :
  delete_many_rejected f = false ->
  get_notebook_style_anomalies loc weather_data
    ++ detect_extreme_events loc weather_data = [] ->
  run_full_anomaly_detection f loc weather_data coll =
    (RunReport true 0 0 0
       {| success := true; message := NoAnomaliesToSave; saved_count := 0 |}
       (get_anomaly_timeseries_data weather_data),
     elsewhere loc coll) /\
  at_location loc (elsewhere loc coll) = [].
Proof.
  intros Hd Hall. split.
  - unfold run_full_anomaly_detection, delete_many. rewrite Hd.
    apply app_eq_nil in Hall as Hparts. destruct Hparts as [Hn He].
    rewrite Hall, Hn, He. reflexivity.
  - unfold at_location, elsewhere.
    induction coll as [|a coll IH]; cbn [filter]; [reflexivity|].
    destruct (option_string_eqb (location a) (Some loc)) eqn:E; cbn [negb filter];
      [|rewrite E]; exact IH.
Qed.

Lemma nothing_detected_witness :
  run_full_anomaly_detection insert_rejecting "default" [] [] =
    (RunReport true 0 0 0
       {| success := true; message := NoAnomaliesToSave; saved_count := 0 |}
       (get_anomaly_timeseries_data []),
     elsewhere "default" []) /\
  at_location "default" (elsewhere "default" []) = [].
Proof.
  exact (nothing_detected_clears insert_rejecting "default" [] [] eq_refl eq_refl).
Defined.

(** * The endpoints *)

Lemma run_success_flag f loc weather_data coll :
  run_success (fst (run_full_anomaly_detection f loc weather_data coll)) =
  negb (delete_many_rejected f).
Proof.
  unfold run_full_anomaly_detection, delete_many.
  destruct (delete_many_rejected f); [reflexivity|].
  destruct (save_anomalies f _ _). reflexivity.
Qed.

(** X21: [POST /anomalies/detect] always answers with a body and the message
    "Anomaly detection completed", never with an [HTTPException]; its
    [success] is false exactly when [delete_many] was rejected, so a
    rejected [insert_many] is answered with [success = True]. *)
Theorem detect_endpoint_answer (f : Faults) (loc : string)
    (weather_data : list WeatherDoc) (coll : list Anomaly) :
  exists body,
    fst (detect_anomalies f loc weather_data coll) = Http200 body /\
    api_message body = "Anomaly detection completed"%string /\
    api_success body = negb (delete_many_rejected f) /\
    api_data body = Some (fst (run_full_anomaly_detection f loc weather_data coll)) /\
    snd (detect_anomalies f loc weather_data coll) =
      snd (run_full_anomaly_detection f loc weather_data coll).
Proof.
  unfold detect_anomalies.
  pose proof (run_success_flag f loc weather_data coll) as H.
  destruct (run_full_anomaly_detection f loc weather_data coll) as [res coll'].
  cbn [fst snd] in *. eexists. split; [reflexivity|].
  cbn [api_message api_success api_data]. auto.
Qed.


(** * [utils.py] next to the detector *)

(** X23: [utils.categorize_severity] and the detector's [determine_severity]
    name the same class except for [2.5 <= |z| < 3.0], which the detector
    calls extreme and [utils] calls high. *)
Theorem severity_scales_differ (z : R) :
  (categorize_severity (Fin z) = severity_value (determine_severity (Fin z)) <->
   ~ (2.5 <= Rabs z < 3.0)) /\
  (2.5 <= Rabs z < 3.0 ->
   categorize_severity (Fin z) = "high"%string /\
   determine_severity (Fin z) = EXTREME).
Proof.
  unfold categorize_severity, determine_severity. cbv zeta. cbn [fabs fge].
  unfold Rgeb.
  destruct (Rle_dec 3.0 (Rabs z)), (Rle_dec 2.5 (Rabs z)), (Rle_dec 2.0 (Rabs z)),
    (Rle_dec 1.5 (Rabs z)); cbn [severity_value];
    (split; [split; [intros H; try discriminate H; lra|intros H; try reflexivity; exfalso; lra]
            |intros H; try (exfalso; lra); split; reflexivity]).
Qed.

Lemma window_nonempty W vals i : (i < length vals)%nat -> window W vals i <> [].
Proof.
  intros Hi. destruct (nth_error vals i) as [v|] eqn:E;
    [|apply nth_error_None in E; lia].
  pose proof (window_member W vals i v E) as H. intros E0. rewrite E0 in H. destruct H.
Qed.

(** X24: for a window of 0 or more, [utils.calculate_moving_average] never
    divides by zero; it returns
    its input unchanged when it is shorter than the window, and
    otherwise, entry by entry, the window means that the moving-average
    detector computes; the result is always as long as the input. *)
Theorem moving_average_utility (data : list R) (W : nat) :
  exists out,
    calculate_moving_average data W = Ok out /\
    out = (if (length data <? W)%nat then data
           else map (window_mean W data) (seq 0 (length data))) /\
    length out = length data.
Proof.
  unfold calculate_moving_average.
  destruct (length data <? W)%nat; [eauto|].
  eexists. split; [|split; [reflexivity|now rewrite length_map, length_seq]].
  apply mapM_pure. intros i Hi. apply in_seq in Hi.
  pose proof (window_nonempty W data i ltac:(lia)) as Hne.
  unfold window_mean. rewrite (mean_nonempty _ Hne).
  unfold py_div. fold (window W data i).
  assert (E : Reqb (len (window W data i)) 0 = false).
  { apply Reqb_false. pose proof (len_pos _ Hne). lra. }
  cbv zeta. change (slice data (Nat.max 0 (i - W / 2))
                      (Nat.min (length data) (i + W / 2 + 1))) with (window W data i).
  now rewrite E.
Qed.

(** * [utils.detect_trend] *)











(** * [utils.find_extreme_values] *)






(** The regular July data do have an extreme event: the record high of the
    last year. *)
Lemma july_regular_has_extreme_event :
  In (extreme_anomaly "default" RecordHighTemp 7 july_regular
        (july_doc "r10" 2010 40 30 60))
     (detect_extreme_events "default" july_regular).
Proof.
  rewrite (extreme_events_regular "default" july_regular july_regular_months).
  change (map fst (monthly_records july_regular)) with [7%Z].
  cbn [flat_map]. rewrite app_nil_r, july_regular_records.
  change (7 =? 7)%Z with true. unfold month_events_spec.
  change (length july_regular <? 10)%nat with false. cbv iota.
  apply in_flat_map. exists (july_doc "r10" 2010 40 30 60). split.
  - unfold july_regular. in_list.
  - cbn [flat_map]. apply in_or_app. left. unfold extreme_emitted.
    assert (Hmax : month_extreme RecordHighTemp july_regular = 40).
    { unfold month_extreme.
      change (map (extreme_field RecordHighTemp) july_regular) with (spike 30 40).
      pose proof (spike_max 30 40 ltac:(lra)) as H. unfold py_max, spike in H.
      injection H as H. exact H. }
    assert (Hz : extreme_zscore RecordHighTemp july_regular = 9 / sqrt 10).
    { unfold extreme_zscore. rewrite Hmax.
      change (map (extreme_field RecordHighTemp) july_regular) with (spike 30 40).
      rewrite spike_mean, (spike_raw_sd 30 40) by lra.
      pose proof sqrt_10_bounds. field. lra. }
    rewrite Hmax, Hz.
    change (extreme_field RecordHighTemp (july_doc "r10" 2010 40 30 60)) with 40.
    rewrite Reqb_refl. cbn [andb].
    assert (Hg : Rgeb (Rabs (9 / sqrt 10)) 2.0 = true).
    { apply Rgeb_true. pose proof sqrt_10_bounds as Hs.
      assert (H : 2 <= 9 / sqrt 10).
      { apply Rmult_le_reg_r with (sqrt 10); [lra|]. field_simplify; lra. }
      rewrite Rabs_right; lra. }
    rewrite Hg. left. reflexivity.
Qed.


